(** * benchq: the extrapolation resource estimator

    A shallow embedding of
    [src/benchq/resource_estimation/graph/extrapolation_estimator.py]
    and the properties of its curve fits and of its orchestration.

    Numbers.  The Python code computes with numpy [float64] values.  The
    embedding keeps the IEEE special values ([nan], [inf], [-inf]), because
    the code produces them (logarithm of a non-positive number, division by
    a zero variance), and takes every finite value to be an exact real
    number: no rounding error and no overflow.  The values that the
    embedding computes are therefore the values of exact arithmetic; the
    code's float64 values can differ from them in the last places, and
    overflow.  The theorems about the module are stated so as not to
    depend on this: they are about which calls are made, which errors
    are raised and what a returned result implies about the input.  The
    worked instances evaluate the embedding, so the values they show are
    those of exact arithmetic.

    Libraries.  [np.log], [np.var], [np.polyfit], [round] and [math.ceil]
    are not part of the module; they are embedded from their documented
    behaviour (module [Numpy]).

    Effects.  The functions raise exceptions, and several properties are
    about what has been done by the time one is raised.  A computation is
    therefore a pair: the list of the calls made so far (least-squares
    fits and the downstream resource computation) and a result or an
    exception. *)

From Stdlib Require Import Reals Lra Lia ZArith Bool String List.
Import ListNotations.

Open Scope R_scope.

(** ** Python exceptions and results *)

Inductive exn : Type :=
| TypeError (msg : string)
| IndexError (msg : string)
| LinAlgError (msg : string)
| ValueError (msg : string)
| OverflowError (msg : string)
| AssertionError.

Inductive result (A : Type) : Type :=
| Ok (a : A)
| Err (e : exn).

Arguments Ok {A} a.
Arguments Err {A} e.

(** ** numpy's floating-point values and the library calls the module makes *)

Module Numpy.

(** A [float64]: a finite value (an exact real here) or a special value. *)
Inductive float : Type :=
| Fin (r : R)
| PInf
| NInf
| NaN.

(** Three-way sign test on a real number. *)
Definition Rsign (r : R) : comparison :=
  if Rlt_dec 0 r then Gt else if Rlt_dec r 0 then Lt else Eq.

Definition fneg (a : float) : float :=
  match a with
  | Fin r => Fin (- r)
  | PInf => NInf
  | NInf => PInf
  | NaN => NaN
  end.

Definition fadd (a b : float) : float :=
  match a, b with
  | NaN, _ | _, NaN => NaN
  | PInf, NInf | NInf, PInf => NaN
  | PInf, _ | _, PInf => PInf
  | NInf, _ | _, NInf => NInf
  | Fin r, Fin s => Fin (r + s)
  end.

Definition fsub (a b : float) : float := fadd a (fneg b).

(** The infinity of the sign of [s], or [nan] when [s] is a zero. *)
Definition signed_inf (s : comparison) : float :=
  match s with
  | Gt => PInf
  | Lt => NInf
  | Eq => NaN
  end.

Definition fsign (a : float) : comparison :=
  match a with
  | Fin r => Rsign r
  | PInf => Gt
  | NInf => Lt
  | NaN => Eq
  end.

Definition fmul (a b : float) : float :=
  match a, b with
  | NaN, _ | _, NaN => NaN
  | Fin r, Fin s => Fin (r * s)
  | _, _ => signed_inf (match fsign a, fsign b with
                        | Eq, _ | _, Eq => Eq
                        | Gt, Gt | Lt, Lt => Gt
                        | _, _ => Lt
                        end)
  end.

(** numpy division: dividing by zero does not raise, it gives an infinity
    or, for [0 / 0], [nan] (with a RuntimeWarning).  The only zero divisor
    the module produces is [len(y) * np.var(y)], a positive zero. *)
Definition fdiv (a b : float) : float :=
  match a, b with
  | NaN, _ | _, NaN => NaN
  | Fin r, Fin s => if Req_dec_T s 0 then signed_inf (Rsign r) else Fin (r / s)
  | Fin _, _ => Fin 0
  | _, Fin s => match fsign a, Rsign s with
                | Gt, Lt | Lt, (Gt | Eq) => NInf
                | _, _ => PInf
                end
  | _, _ => NaN
  end.

(** [np.log] on one value.  It never raises: the logarithm of zero is
    [-inf] and the logarithm of a negative number is [nan] (each with a
    RuntimeWarning only). *)
Definition log1 (v : R) : float :=
  match Rsign v with
  | Gt => Fin (ln v)
  | Eq => NInf
  | Lt => NaN
  end.

(** [np.log] on an array: element-wise. *)
Definition log (x : list R) : list float := map log1 x.

(** Floor and ceiling of a real number. *)
Definition floor (r : R) : Z := Int_part r.
Definition ceil (r : R) : Z := (- Int_part (- r))%Z.

(** Round to the nearest integer, ties to the even one ([np.rint]). *)
Definition rint (r : R) : Z :=
  let f := floor r in
  let d := r - IZR f in
  if Rlt_dec d (1 / 2) then f
  else if Rlt_dec (1 / 2) d then (f + 1)%Z
  else if Z.even f then f else (f + 1)%Z.

(** [round(v, ndigits)] on a [float64]: scale by [10^ndigits], round to
    the nearest integer, scale back; special values are unchanged. *)
Definition round_real (r : R) (ndigits : nat) : R :=
  IZR (rint (r * 10 ^ ndigits)) / 10 ^ ndigits.

Definition round (v : float) (ndigits : nat) : float :=
  match v with
  | Fin r => Fin (round_real r ndigits)
  | _ => v
  end.

(** [math.ceil]: an integer, or an exception on a special value. *)
Definition math_ceil (v : float) : result Z :=
  match v with
  | Fin r => Ok (ceil r)
  | NaN => Err (ValueError "cannot convert float NaN to integer")
  | PInf | NInf =>
      Err (OverflowError "cannot convert float infinity to integer")
  end.

(** Sums over arrays. *)
Definition sum (l : list R) : R := fold_right Rplus 0 l.

Fixpoint dot (x y : list R) : R :=
  match x, y with
  | a :: x', b :: y' => a * b + dot x' y'
  | _, _ => 0
  end.

Definition len (l : list R) : R := INR (length l).

Definition mean (l : list R) : R := sum l / len l.

(** [np.var]: the population variance (divisor [n]). *)
Definition var (y : list R) : R :=
  sum (map (fun v => (v - mean y) ^ 2) y) / len y.

(** The finite values of an array, when all of them are finite. *)
Fixpoint all_finite (x : list float) : option (list R) :=
  match x with
  | [] => Some []
  | Fin r :: x' => option_map (cons r) (all_finite x')
  | _ :: _ => None
  end.

(** Sum of squared residuals of the line [m * x + c]. *)
Fixpoint sse (m c : R) (x y : list R) : R :=
  match x, y with
  | a :: x', b :: y' => (b - (m * a + c)) ^ 2 + sse m c x' y'
  | _, _ => 0
  end.

(** What [np.polyfit(x, y, 1, full=True)] returns, as far as the caller
    reads it: the coefficients [(m, c)], highest power first, and the
    residual array (the rank, the singular values and [rcond] are
    discarded by the caller). *)
Record polyfit_result : Type := {
  coeffs : R * R;
  residuals : list R
}.

(** Determinant of the normal equations of the design matrix [[x 1]]: it
    is zero exactly when the matrix has rank below 2. *)
Definition gram_det (x : list R) : R := len x * dot x x - sum x * sum x.

(** [np.polyfit(x, y, 1, full=True)], after numpy's documentation and
    source ([numpy.polyfit], [numpy.linalg.lstsq]):
    - an empty [x], or [x] and [y] of different lengths, is a TypeError;
    - a non-finite entry of [x], or an [x] column of zeros (divided by its
      zero norm when the columns are scaled), puts [nan] into the matrix
      and the LAPACK solver reports that its SVD did not converge;
    - otherwise the coefficients are the least-squares solution (the one of
      smallest norm in the scaled coordinates when the rank is below 2);
    - the residual array holds the sum of squared residuals, and is EMPTY
      when the rank is below 2 or when there are no more points than
      coefficients ([M <= N], here [len(x) <= 2]). *)
Definition polyfit (x : list float) (y : list R) : result polyfit_result :=
  if (length x =? 0)%nat then
    Err (TypeError "expected non-empty vector for x")
  else if negb (length x =? length y)%nat then
    Err (TypeError "expected x and y to have same length")
  else
    match all_finite x with
    | None => Err (LinAlgError "SVD did not converge in Linear Least Squares")
    | Some xs =>
        if Req_dec_T (dot xs xs) 0 then
          Err (LinAlgError "SVD did not converge in Linear Least Squares")
        else if Req_dec_T (gram_det xs) 0 then
          Ok {| coeffs := (mean y / (2 * hd 0 xs), mean y / 2);
                residuals := [] |}
        else
          let m := (len xs * dot xs y - sum xs * sum y) / gram_det xs in
          let c := (sum y * dot xs xs - sum xs * dot xs y) / gram_det xs in
          Ok {| coeffs := (m, c);
                residuals := if (2 <? length xs)%nat then [sse m c xs y]
                             else [] |}
    end.

End Numpy.

(** ** The data model *)

(** Modelled from the spec: [ResourceInfo] is declared in
    [graph_estimator.py], which is not among the sources; the fields are
    the ones the constructor call in [estimate_via_extrapolation] names.
    The two metrics that are extrapolated are numbers (the spec's samples
    include [53.5]); the remaining counts are integers. *)
Module ResourceInfo.
Record t : Type := {
  n_logical_qubits : R;
  n_measurement_steps : R;
  n_nodes : Z;
  n_t_gates : Z;
  n_rotation_gates : Z;
  code_distance : Z;
  logical_error_rate : Numpy.float;
  total_time_in_seconds : Numpy.float;
  n_physical_qubits : Z;
  decoder_total_energy_consumption : Numpy.float;
  decoder_power : Numpy.float;
  decoder_area : Numpy.float;
  max_decodable_distance : Z
}.
End ResourceInfo.

(** [ExtrapolatedGraphData(GraphData)]: the five fields of [GraphData]
    (as the constructor call in [_get_extrapolated_graph_data] names them)
    and the two R-squared scores the subclass adds. *)
Module ExtrapolatedGraphData.
Record t : Type := {
  max_graph_degree : Z;
  n_measurement_steps : Z;
  n_nodes : Z;
  n_t_gates : Z;
  n_rotation_gates : Z;
  max_graph_degree_r_squared : Numpy.float;
  n_measurement_steps_r_squared : Numpy.float
}.
End ExtrapolatedGraphData.

(** [ExtrapolatedResourceInfo(ResourceInfo)]: every field of
    [ResourceInfo] and the four the subclass adds. *)
Module ExtrapolatedResourceInfo.
Record t : Type := {
  n_logical_qubits : R;
  n_measurement_steps : R;
  n_nodes : Z;
  n_t_gates : Z;
  n_rotation_gates : Z;
  code_distance : Z;
  logical_error_rate : Numpy.float;
  total_time_in_seconds : Numpy.float;
  n_physical_qubits : Z;
  decoder_total_energy_consumption : Numpy.float;
  decoder_power : Numpy.float;
  decoder_area : Numpy.float;
  max_decodable_distance : Z;
  n_logical_qubits_r_squared : Numpy.float;
  n_measurement_steps_r_squared : Numpy.float;
  data_used_to_extrapolate : list ResourceInfo.t;
  steps_to_extrapolate_to : Z
}.
End ExtrapolatedResourceInfo.

(** Modelled from the spec: [QuantumProgram] is declared in
    [data_structures], which is not among the sources; these are the four
    attributes the module reads: the target step count and the exact
    structural counts of the target program. *)
Module QuantumProgram.
Record t : Type := {
  steps : Z;
  n_t_gates : Z;
  n_rotation_gates : Z;
  n_nodes : Z
}.
End QuantumProgram.

(** The object held by [algorithm_description.program]: a
    [QuantumProgram], or an object of another class (a graph partition,
    for one), which [isinstance] tells apart. *)
Inductive program_object : Type :=
| AQuantumProgram (p : QuantumProgram.t)
| NotAQuantumProgram.

(** Modelled from the spec: [AlgorithmImplementation] is declared in
    [data_structures]; the module reads its [program] attribute only. *)
Module AlgorithmImplementation.
Record t : Type := {
  program : program_object
}.
End AlgorithmImplementation.

(** The attributes [ExtrapolationResourceEstimator.__init__] stores on the
    estimator itself.  The hardware model, the decoder model and the
    distillation widget go to the base class and are read by its methods
    only. *)
Module ExtrapolationResourceEstimator.
Record t : Type := {
  steps_to_extrapolate_from : list Z;
  n_measurement_steps_fit_type : string
}.
End ExtrapolationResourceEstimator.

(** ** Computations: a result or an exception, and the calls made so far *)

(** The calls that count as work done: a least-squares fit, and the
    downstream resource computation of the base class. *)
Inductive event : Type :=
| EvPolyfit (x : list Numpy.float) (y : list R)
| EvEstimateResources (g : ExtrapolatedGraphData.t).

Definition M (A : Type) : Type := (list event * result A)%type.

Definition ret {A} (a : A) : M A := ([], Ok a).

Definition raise {A} (e : exn) : M A := ([], Err e).

Definition bind {A B} (m : M A) (k : A -> M B) : M B :=
  match m with
  | (tr, Err e) => (tr, Err e)
  | (tr, Ok a) => let (tr', r) := k a in (tr ++ tr', r)
  end.

Definition tell (e : event) : M unit := ([e], Ok tt).

Definition lift {A} (r : result A) : M A := ([], r).

Notation "x <- m ;; k" := (bind m (fun x => k))
  (at level 61, m at next level, right associativity).
Notation "' pat <- m ;; k" := (bind m (fun x => match x with pat => k end))
  (at level 61, pat pattern, m at next level, right associativity).

(** The calls made, and the outcome. *)
Definition calls {A} (m : M A) : list event := fst m.
Definition outcome {A} (m : M A) : result A := snd m.

Definition is_fit (e : event) : bool :=
  match e with
  | EvPolyfit _ _ => true
  | EvEstimateResources _ => false
  end.

(** Whether a least-squares fit was attempted. *)
Definition fit_attempted {A} (m : M A) : bool := existsb is_fit (calls m).

(** ** The module's functions *)

Import Numpy.

(** [np.polyfit(x, y, 1, full=True)], recorded as a call. *)
Definition np_polyfit (x : list float) (y : list R) : M polyfit_result :=
  _ <- tell (EvPolyfit x y) ;; lift (polyfit x y).

(** The error of [a[0]] on an empty array. *)
Definition index_error : exn :=
  IndexError "index 0 is out of bounds for axis 0 with size 0".

(** [a[0]] on the residual array. *)
Definition index0 (a : list R) : M R :=
  match a with
  | r :: _ => ret r
  | [] => raise index_error
  end.

(** [1 - (sum_of_residuals[0] / (len(y) * np.var(y)))] *)
Definition r_squared_of (s0 : R) (y : list R) : float :=
  fsub (Fin 1) (fdiv (Fin s0) (fmul (Fin (len y)) (Fin (var y)))).

Definition _get_linear_extrapolation
    (x y : list R) (steps_to_extrapolate_to : R) : M (Z * float) :=
  fit <- np_polyfit (map Fin x) y ;;
  s0 <- index0 (residuals fit) ;;
  let r_squared := r_squared_of s0 y in
  let '(m, c) := coeffs fit in
  let rounded_point :=
    round (fadd (fmul (Fin m) (Fin steps_to_extrapolate_to)) (Fin c)) 5 in
  p <- lift (math_ceil rounded_point) ;;
  ret (p, r_squared).

Definition _get_logarithmic_extrapolation
    (x y : list R) (steps_to_extrapolate_to : R) : M (Z * float) :=
  let log_x := log x in
  fit <- np_polyfit log_x y ;;
  s0 <- index0 (residuals fit) ;;
  let r_squared := r_squared_of s0 y in
  let '(m, c) := coeffs fit in
  let rounded_point :=
    fadd (fmul (Fin m) (log1 steps_to_extrapolate_to)) (Fin c) in
  p <- lift (math_ceil rounded_point) ;;
  ret (p, r_squared).

(** The message of the [ValueError] raised for an unknown fit type. *)
Definition fit_type_message (fit_type : string) : string :=
  ("n_measurement_steps_fit_type must be either 'logarithmic' or 'linear'"
   ++ ", not " ++ fit_type)%string.

Definition _get_extrapolated_graph_data
    (self : ExtrapolationResourceEstimator.t)
    (data : list ResourceInfo.t)
    (program : QuantumProgram.t) : M ExtrapolatedGraphData.t :=
  let steps_to_extrapolate_to := IZR (QuantumProgram.steps program) in
  let steps_from :=
    map IZR (ExtrapolationResourceEstimator.steps_to_extrapolate_from self) in
  let fit_type :=
    ExtrapolationResourceEstimator.n_measurement_steps_fit_type self in
  '(max_graph_degree, max_graph_degree_r_squared) <-
    _get_linear_extrapolation
      steps_from
      (map ResourceInfo.n_logical_qubits data)
      steps_to_extrapolate_to ;;
  '(n_measurement_steps, n_measurement_steps_r_squared) <-
    (if (fit_type =? "logarithmic")%string then
       _get_logarithmic_extrapolation
         steps_from
         (map ResourceInfo.n_measurement_steps data)
         steps_to_extrapolate_to
     else if (fit_type =? "linear")%string then
       _get_linear_extrapolation
         steps_from
         (map ResourceInfo.n_measurement_steps data)
         steps_to_extrapolate_to
     else
       raise (ValueError (fit_type_message fit_type))) ;;
  ret {| ExtrapolatedGraphData.max_graph_degree := max_graph_degree;
         ExtrapolatedGraphData.n_measurement_steps := n_measurement_steps;
         ExtrapolatedGraphData.n_nodes :=
           (QuantumProgram.n_t_gates program
            + QuantumProgram.n_rotation_gates program)%Z;
         ExtrapolatedGraphData.n_t_gates := QuantumProgram.n_t_gates program;
         ExtrapolatedGraphData.n_rotation_gates :=
           QuantumProgram.n_rotation_gates program;
         ExtrapolatedGraphData.max_graph_degree_r_squared :=
           max_graph_degree_r_squared;
         ExtrapolatedGraphData.n_measurement_steps_r_squared :=
           n_measurement_steps_r_squared |}.

(** The two fits [_get_extrapolated_graph_data] makes, by name: the
    degree metric, always linear, and the measurement-step metric, by the
    configured family. *)
Definition degree_fit
    (self : ExtrapolationResourceEstimator.t)
    (data : list ResourceInfo.t)
    (program : QuantumProgram.t) : M (Z * float) :=
  _get_linear_extrapolation
    (map IZR (ExtrapolationResourceEstimator.steps_to_extrapolate_from self))
    (map ResourceInfo.n_logical_qubits data)
    (IZR (QuantumProgram.steps program)).

Definition measurement_steps_fit
    (self : ExtrapolationResourceEstimator.t)
    (data : list ResourceInfo.t)
    (program : QuantumProgram.t) : M (Z * float) :=
  let fit_type :=
    ExtrapolationResourceEstimator.n_measurement_steps_fit_type self in
  let x :=
    map IZR (ExtrapolationResourceEstimator.steps_to_extrapolate_from self) in
  let y := map ResourceInfo.n_measurement_steps data in
  let q := IZR (QuantumProgram.steps program) in
  if (fit_type =? "logarithmic")%string then
    _get_logarithmic_extrapolation x y q
  else if (fit_type =? "linear")%string then
    _get_linear_extrapolation x y q
  else
    raise (ValueError (fit_type_message fit_type)).

(** The graph data assembled from the two projections and the program. *)
Definition graph_data_of
    (program : QuantumProgram.t) (degree : Z * float) (steps : Z * float)
  : ExtrapolatedGraphData.t :=
  {| ExtrapolatedGraphData.max_graph_degree := fst degree;
     ExtrapolatedGraphData.n_measurement_steps := fst steps;
     ExtrapolatedGraphData.n_nodes :=
       (QuantumProgram.n_t_gates program
        + QuantumProgram.n_rotation_gates program)%Z;
     ExtrapolatedGraphData.n_t_gates := QuantumProgram.n_t_gates program;
     ExtrapolatedGraphData.n_rotation_gates :=
       QuantumProgram.n_rotation_gates program;
     ExtrapolatedGraphData.max_graph_degree_r_squared := snd degree;
     ExtrapolatedGraphData.n_measurement_steps_r_squared := snd steps |}.

(** The downstream resource computation: the method
    [_estimate_resources_from_graph_data] that the estimator inherits from
    [GraphResourceEstimator].  The base class is not among the sources, so
    the method is a parameter of [estimate_via_extrapolation]. *)
Definition downstream : Type :=
  ExtrapolationResourceEstimator.t -> ExtrapolatedGraphData.t ->
  AlgorithmImplementation.t -> result ResourceInfo.t.

Section Estimator.

Variable _estimate_resources_from_graph_data : downstream.

Definition estimate_resources
    (self : ExtrapolationResourceEstimator.t)
    (g : ExtrapolatedGraphData.t)
    (algorithm_description : AlgorithmImplementation.t) : M ResourceInfo.t :=
  _ <- tell (EvEstimateResources g) ;;
  lift (_estimate_resources_from_graph_data self g algorithm_description).

Definition estimate_via_extrapolation
    (self : ExtrapolationResourceEstimator.t)
    (algorithm_description : AlgorithmImplementation.t)
    (data : list ResourceInfo.t) : M ExtrapolatedResourceInfo.t :=
  match AlgorithmImplementation.program algorithm_description with
  | NotAQuantumProgram => raise AssertionError
  | AQuantumProgram program =>
      extrapolated_info <- _get_extrapolated_graph_data self data program ;;
      resource_info <-
        estimate_resources self extrapolated_info algorithm_description ;;
      ret {| ExtrapolatedResourceInfo.n_logical_qubits :=
               ResourceInfo.n_logical_qubits resource_info;
             ExtrapolatedResourceInfo.n_measurement_steps :=
               ResourceInfo.n_measurement_steps resource_info;
             ExtrapolatedResourceInfo.n_nodes := QuantumProgram.n_nodes program;
             ExtrapolatedResourceInfo.n_t_gates :=
               ResourceInfo.n_t_gates resource_info;
             ExtrapolatedResourceInfo.n_rotation_gates :=
               ResourceInfo.n_rotation_gates resource_info;
             ExtrapolatedResourceInfo.code_distance :=
               ResourceInfo.code_distance resource_info;
             ExtrapolatedResourceInfo.logical_error_rate :=
               ResourceInfo.logical_error_rate resource_info;
             ExtrapolatedResourceInfo.total_time_in_seconds :=
               ResourceInfo.total_time_in_seconds resource_info;
             ExtrapolatedResourceInfo.n_physical_qubits :=
               ResourceInfo.n_physical_qubits resource_info;
             ExtrapolatedResourceInfo.decoder_total_energy_consumption :=
               ResourceInfo.decoder_total_energy_consumption resource_info;
             ExtrapolatedResourceInfo.decoder_power :=
               ResourceInfo.decoder_power resource_info;
             ExtrapolatedResourceInfo.decoder_area :=
               ResourceInfo.decoder_area resource_info;
             ExtrapolatedResourceInfo.max_decodable_distance :=
               ResourceInfo.max_decodable_distance resource_info;
             ExtrapolatedResourceInfo.n_logical_qubits_r_squared :=
               ExtrapolatedGraphData.max_graph_degree_r_squared
                 extrapolated_info;
             ExtrapolatedResourceInfo.n_measurement_steps_r_squared :=
               ExtrapolatedGraphData.n_measurement_steps_r_squared
                 extrapolated_info;
             ExtrapolatedResourceInfo.data_used_to_extrapolate := data;
             ExtrapolatedResourceInfo.steps_to_extrapolate_to :=
               QuantumProgram.steps program |}
  end.

End Estimator.

(** Sum of squared deviations from [mu]. *)
Definition sq_dev (mu : R) (x : list R) : R :=
  sum (map (fun v => (v - mu) ^ 2) x).

(** The report [estimate_via_extrapolation] builds from the program, the
    samples, the extrapolated graph data and the downstream result. *)
Definition report_of
    (program : QuantumProgram.t) (data : list ResourceInfo.t)
    (extrapolated_info : ExtrapolatedGraphData.t)
    (resource_info : ResourceInfo.t) : ExtrapolatedResourceInfo.t :=
  {| ExtrapolatedResourceInfo.n_logical_qubits :=
       ResourceInfo.n_logical_qubits resource_info;
     ExtrapolatedResourceInfo.n_measurement_steps :=
       ResourceInfo.n_measurement_steps resource_info;
     ExtrapolatedResourceInfo.n_nodes := QuantumProgram.n_nodes program;
     ExtrapolatedResourceInfo.n_t_gates :=
       ResourceInfo.n_t_gates resource_info;
     ExtrapolatedResourceInfo.n_rotation_gates :=
       ResourceInfo.n_rotation_gates resource_info;
     ExtrapolatedResourceInfo.code_distance :=
       ResourceInfo.code_distance resource_info;
     ExtrapolatedResourceInfo.logical_error_rate :=
       ResourceInfo.logical_error_rate resource_info;
     ExtrapolatedResourceInfo.total_time_in_seconds :=
       ResourceInfo.total_time_in_seconds resource_info;
     ExtrapolatedResourceInfo.n_physical_qubits :=
       ResourceInfo.n_physical_qubits resource_info;
     ExtrapolatedResourceInfo.decoder_total_energy_consumption :=
       ResourceInfo.decoder_total_energy_consumption resource_info;
     ExtrapolatedResourceInfo.decoder_power :=
       ResourceInfo.decoder_power resource_info;
     ExtrapolatedResourceInfo.decoder_area :=
       ResourceInfo.decoder_area resource_info;
     ExtrapolatedResourceInfo.max_decodable_distance :=
       ResourceInfo.max_decodable_distance resource_info;
     ExtrapolatedResourceInfo.n_logical_qubits_r_squared :=
       ExtrapolatedGraphData.max_graph_degree_r_squared extrapolated_info;
     ExtrapolatedResourceInfo.n_measurement_steps_r_squared :=
       ExtrapolatedGraphData.n_measurement_steps_r_squared extrapolated_info;
     ExtrapolatedResourceInfo.data_used_to_extrapolate := data;
     ExtrapolatedResourceInfo.steps_to_extrapolate_to :=
       QuantumProgram.steps program |}.

(** ** What the specification says, in the embedding's terms *)

(** The projection as the specification words it, for either family:
    evaluate [m * x' + c], round to 5 decimal places, take the ceiling. *)
Definition spec_projection (m c x' : R) : Z := ceil (round_real (m * x' + c) 5).

(** A failure with a domain error raised before any fit is attempted. *)
Definition domain_error_before_fit {A} (m : M A) : Prop :=
  fit_attempted m = false /\ exists msg, outcome m = Err (ValueError msg).

(** ** A worked instance

    Samples at step counts 10, 20 and 30, a degree metric of 100, 200 and
    300 and a measurement-step metric of 50, 60 and 70, extrapolated to
    1000 steps. *)

Definition sample (degree steps_metric : R) : ResourceInfo.t :=
  {| ResourceInfo.n_logical_qubits := degree;
     ResourceInfo.n_measurement_steps := steps_metric;
     ResourceInfo.n_nodes := 0;
     ResourceInfo.n_t_gates := 0;
     ResourceInfo.n_rotation_gates := 0;
     ResourceInfo.code_distance := 0;
     ResourceInfo.logical_error_rate := Fin 0;
     ResourceInfo.total_time_in_seconds := Fin 0;
     ResourceInfo.n_physical_qubits := 0;
     ResourceInfo.decoder_total_energy_consumption := Fin 0;
     ResourceInfo.decoder_power := Fin 0;
     ResourceInfo.decoder_area := Fin 0;
     ResourceInfo.max_decodable_distance := 0 |}.

Definition sample_data : list ResourceInfo.t :=
  [sample 100 50; sample 200 60; sample 300 70].

Definition two_samples : list ResourceInfo.t :=
  [sample 100 50; sample 200 60].

Definition estimator (steps : list Z) (fit_type : string)
  : ExtrapolationResourceEstimator.t :=
  {| ExtrapolationResourceEstimator.steps_to_extrapolate_from := steps;
     ExtrapolationResourceEstimator.n_measurement_steps_fit_type := fit_type |}.

Definition sample_program : QuantumProgram.t :=
  {| QuantumProgram.steps := 1000;
     QuantumProgram.n_t_gates := 3;
     QuantumProgram.n_rotation_gates := 4;
     QuantumProgram.n_nodes := 10 |}.

Definition sample_description : AlgorithmImplementation.t :=
  {| AlgorithmImplementation.program := AQuantumProgram sample_program |}.

Definition other_description : AlgorithmImplementation.t :=
  {| AlgorithmImplementation.program := NotAQuantumProgram |}.

(** A resource computation that copies what it can from the graph data. *)
Definition echo_downstream : downstream :=
  fun _ g _ =>
    Ok {| ResourceInfo.n_logical_qubits :=
            IZR (ExtrapolatedGraphData.max_graph_degree g);
          ResourceInfo.n_measurement_steps :=
            IZR (ExtrapolatedGraphData.n_measurement_steps g);
          ResourceInfo.n_nodes := ExtrapolatedGraphData.n_nodes g;
          ResourceInfo.n_t_gates := ExtrapolatedGraphData.n_t_gates g;
          ResourceInfo.n_rotation_gates :=
            ExtrapolatedGraphData.n_rotation_gates g;
          ResourceInfo.code_distance := 0;
          ResourceInfo.logical_error_rate := Fin 0;
          ResourceInfo.total_time_in_seconds := Fin 0;
          ResourceInfo.n_physical_qubits := 0;
          ResourceInfo.decoder_total_energy_consumption := Fin 0;
          ResourceInfo.decoder_power := Fin 0;
          ResourceInfo.decoder_area := Fin 0;
          ResourceInfo.max_decodable_distance := 0 |}.


(** The graph data the worked instance extrapolates to. *)
Definition sample_graph_data : ExtrapolatedGraphData.t :=
  {| ExtrapolatedGraphData.max_graph_degree := 10000;
     ExtrapolatedGraphData.n_measurement_steps := 1040;
     ExtrapolatedGraphData.n_nodes := 7;
     ExtrapolatedGraphData.n_t_gates := 3;
     ExtrapolatedGraphData.n_rotation_gates := 4;
     ExtrapolatedGraphData.max_graph_degree_r_squared := Fin 1;
     ExtrapolatedGraphData.n_measurement_steps_r_squared := Fin 1 |}.

(** What [echo_downstream] returns on the worked instance, and the final
    report. *)
Definition sample_resource_info : ResourceInfo.t :=
  {| ResourceInfo.n_logical_qubits := 10000;
     ResourceInfo.n_measurement_steps := 1040;
     ResourceInfo.n_nodes := 7;
     ResourceInfo.n_t_gates := 3;
     ResourceInfo.n_rotation_gates := 4;
     ResourceInfo.code_distance := 0;
     ResourceInfo.logical_error_rate := Fin 0;
     ResourceInfo.total_time_in_seconds := Fin 0;
     ResourceInfo.n_physical_qubits := 0;
     ResourceInfo.decoder_total_energy_consumption := Fin 0;
     ResourceInfo.decoder_power := Fin 0;
     ResourceInfo.decoder_area := Fin 0;
     ResourceInfo.max_decodable_distance := 0 |}.

Definition sample_report : ExtrapolatedResourceInfo.t :=
  report_of sample_program sample_data sample_graph_data sample_resource_info.

(** ** The constructor and the printed form *)

(** [ExtrapolationResourceEstimator.__init__], for the two attributes it
    stores itself: the step counts are required, the fit type is optional
    and defaults to ['logarithmic'].  (The hardware model, the decoder
    model and the distillation widget are passed on to the base class.) *)
Definition __init__
    (steps_to_extrapolate_from : list Z)
    (n_measurement_steps_fit_type : option string)
  : ExtrapolationResourceEstimator.t :=
  {| ExtrapolationResourceEstimator.steps_to_extrapolate_from :=
       steps_to_extrapolate_from;
     ExtrapolationResourceEstimator.n_measurement_steps_fit_type :=
       match n_measurement_steps_fit_type with
       | Some fit_type => fit_type
       | None => "logarithmic"%string
       end |}.

(** The newline character, and [sep.join(items)]. *)
Definition newline : string := String (Ascii.ascii_of_nat 10) EmptyString.

Fixpoint join (sep : string) (items : list string) : string :=
  match items with
  | [] => EmptyString
  | [s] => s
  | s :: rest => (s ++ sep ++ join sep rest)%string
  end.

(** The attributes [ExtrapolatedResourceInfo.__repr__] adds to the
    inherited text, by name, in the order of [new_necessary_info]. *)
Definition new_necessary_info
  : list (string * (ExtrapolatedResourceInfo.t -> float)) :=
  [ ("n_logical_qubits_r_squared"%string,
     ExtrapolatedResourceInfo.n_logical_qubits_r_squared);
    ("n_measurement_steps_r_squared"%string,
     ExtrapolatedResourceInfo.n_measurement_steps_r_squared) ].

Section Repr.

(** [ResourceInfo.__repr__], which is not among the sources, and the
    text Python prints for a float. *)
Variable super_repr : ExtrapolatedResourceInfo.t -> string.
Variable str : float -> string.

Definition __repr__ (self : ExtrapolatedResourceInfo.t) : string :=
  let inherited_necessary_info := (super_repr self ++ newline)%string in
  (inherited_necessary_info
   ++ join newline
        (map (fun info => (fst info ++ ": " ++ str (snd info self))%string)
           new_necessary_info))%string.

End Repr.

(** A second worked instance, for the default family: samples at 1, 2
    and 4 steps, a degree metric of 100, 200 and 400 and a
    measurement-step metric of 5, 6 and 7, extrapolated to 8 steps. *)
Definition doubling_data : list ResourceInfo.t :=
  [sample 100 5; sample 200 6; sample 400 7].

Definition doubling_program : QuantumProgram.t :=
  {| QuantumProgram.steps := 8;
     QuantumProgram.n_t_gates := 3;
     QuantumProgram.n_rotation_gates := 4;
     QuantumProgram.n_nodes := 10 |}.

Definition doubling_graph_data : ExtrapolatedGraphData.t :=
  {| ExtrapolatedGraphData.max_graph_degree := 800;
     ExtrapolatedGraphData.n_measurement_steps := 8;
     ExtrapolatedGraphData.n_nodes := 7;
     ExtrapolatedGraphData.n_t_gates := 3;
     ExtrapolatedGraphData.n_rotation_gates := 4;
     ExtrapolatedGraphData.max_graph_degree_r_squared := Fin 1;
     ExtrapolatedGraphData.n_measurement_steps_r_squared := Fin 1 |}.

(** ** Facts about the numeric operations *)

Lemma Rsign_pos (r : R) : 0 < r -> Rsign r = Gt.
Proof.
  intros H. unfold Rsign. destruct (Rlt_dec 0 r) as [_|n]; [reflexivity|].
  exfalso; exact (n H).
Qed.

Lemma Rsign_neg (r : R) : r < 0 -> Rsign r = Lt.
Proof.
  intros H. unfold Rsign.
  destruct (Rlt_dec 0 r) as [p|_]; [lra|].
  destruct (Rlt_dec r 0) as [_|n]; [reflexivity|contradiction].
Qed.

Lemma Rsign_zero : Rsign 0 = Eq.
Proof.
  unfold Rsign.
  destruct (Rlt_dec 0 0) as [p|_]; [lra|reflexivity].
Qed.

Lemma ceil_spec (r : R) (z : Z) : IZR z - 1 < r <= IZR z -> ceil r = z.
Proof.
  intros [H1 H2]. unfold ceil.
  rewrite <- (Int_part_spec (- r) (- z)).
  - lia.
  - rewrite opp_IZR. lra.
Qed.

Lemma ceil_IZR (z : Z) : ceil (IZR z) = z.
Proof. apply ceil_spec. lra. Qed.

Lemma floor_spec (r : R) (z : Z) : IZR z <= r < IZR z + 1 -> floor r = z.
Proof.
  intros [H1 H2]. unfold floor. symmetry. apply Int_part_spec. lra.
Qed.

Lemma rint_near (r : R) (z : Z) :
  IZR z - 1 / 2 < r < IZR z + 1 / 2 -> rint r = z.
Proof.
  intros [H1 H2]. unfold rint.
  destruct (Rle_lt_dec (IZR z) r) as [Hge|Hlt].
  - rewrite (floor_spec r z) by lra.
    destruct (Rlt_dec (r - IZR z) (1 / 2)) as [_|n]; [reflexivity|lra].
  - rewrite (floor_spec r (z - 1)) by (rewrite minus_IZR; lra).
    rewrite minus_IZR.
    destruct (Rlt_dec (r - (IZR z - 1)) (1 / 2)) as [p|_]; [lra|].
    destruct (Rlt_dec (1 / 2) (r - (IZR z - 1))) as [_|n]; [lia|lra].
Qed.

Lemma all_finite_Fin (x : list R) : all_finite (map Fin x) = Some x.
Proof.
  induction x as [|a x IH]; simpl; [reflexivity|].
  rewrite IH. reflexivity.
Qed.

Lemma len_map {A} (f : A -> R) (x : list A) : len (map f x) = INR (length x).
Proof. unfold len. rewrite length_map. reflexivity. Qed.

Lemma len_pos (x : list R) : (0 < length x)%nat -> 0 < len x.
Proof. intros H. unfold len. apply lt_0_INR. exact H. Qed.

(** Sums of an affine image. *)
Section Affine.

Variables a b : R.

Lemma sum_affine (x : list R) :
  sum (map (fun t => a * t + b) x) = a * sum x + b * len x.
Proof.
  unfold len. induction x as [|v x IH].
  - simpl. lra.
  - change (sum (map (fun t => a * t + b) (v :: x)))
      with ((a * v + b) + sum (map (fun t => a * t + b) x)).
    change (sum (v :: x)) with (v + sum x).
    change (length (v :: x)) with (S (length x)).
    rewrite S_INR, IH. lra.
Qed.

Lemma dot_affine (x : list R) :
  dot x (map (fun t => a * t + b) x) = a * dot x x + b * sum x.
Proof.
  induction x as [|v x IH].
  - simpl. lra.
  - change (dot (v :: x) (map (fun t => a * t + b) (v :: x)))
      with (v * (a * v + b) + dot x (map (fun t => a * t + b) x)).
    change (dot (v :: x) (v :: x)) with (v * v + dot x x).
    change (sum (v :: x)) with (v + sum x).
    rewrite IH. lra.
Qed.

Lemma sse_affine (x : list R) :
  sse a b x (map (fun t => a * t + b) x) = 0.
Proof.
  induction x as [|v x IH].
  - reflexivity.
  - change (sse a b (v :: x) (map (fun t => a * t + b) (v :: x)))
      with (((a * v + b) - (a * v + b)) ^ 2
            + sse a b x (map (fun t => a * t + b) x)).
    rewrite IH. lra.
Qed.

Lemma dot_affine_affine (x : list R) :
  dot (map (fun t => a * t + b) x) (map (fun t => a * t + b) x)
  = a * a * dot x x + 2 * a * b * sum x + b * b * len x.
Proof.
  unfold len. induction x as [|v x IH].
  - simpl. lra.
  - change (dot (map (fun t => a * t + b) (v :: x))
                (map (fun t => a * t + b) (v :: x)))
      with ((a * v + b) * (a * v + b)
            + dot (map (fun t => a * t + b) x)
                  (map (fun t => a * t + b) x)).
    change (dot (v :: x) (v :: x)) with (v * v + dot x x).
    change (sum (v :: x)) with (v + sum x).
    change (length (v :: x)) with (S (length x)).
    rewrite S_INR, IH. lra.
Qed.

Lemma gram_det_affine (x : list R) :
  gram_det (map (fun t => a * t + b) x) = a * a * gram_det x.
Proof.
  unfold gram_det. rewrite dot_affine_affine, sum_affine, len_map.
  fold (len x). ring.
Qed.

End Affine.

(** Sums of squared deviations, and the rank test. *)

Lemma sq_dev_expand (mu : R) (x : list R) :
  sq_dev mu x = dot x x - 2 * mu * sum x + len x * mu ^ 2.
Proof.
  unfold sq_dev, len. induction x as [|v x IH].
  - simpl. lra.
  - change (sum (map (fun v0 => (v0 - mu) ^ 2) (v :: x)))
      with ((v - mu) ^ 2 + sum (map (fun v0 => (v0 - mu) ^ 2) x)).
    change (dot (v :: x) (v :: x)) with (v * v + dot x x).
    change (sum (v :: x)) with (v + sum x).
    change (length (v :: x)) with (S (length x)).
    rewrite S_INR, IH. lra.
Qed.

Lemma sq_dev_nonneg (mu : R) (x : list R) : 0 <= sq_dev mu x.
Proof.
  unfold sq_dev. induction x as [|v x IH].
  - simpl. lra.
  - change (sum (map (fun v0 => (v0 - mu) ^ 2) (v :: x)))
      with ((v - mu) ^ 2 + sum (map (fun v0 => (v0 - mu) ^ 2) x)).
    pose proof (pow2_ge_0 (v - mu)). lra.
Qed.

Lemma sq_dev_zero (mu : R) (x : list R) :
  sq_dev mu x = 0 -> forall v, In v x -> v = mu.
Proof.
  induction x as [|w x IH]; intros H v Hin; [destruct Hin|].
  change (sq_dev mu (w :: x)) with ((w - mu) ^ 2 + sq_dev mu x) in H.
  pose proof (pow2_ge_0 (w - mu)) as Hw.
  pose proof (sq_dev_nonneg mu x) as Hx.
  destruct Hin as [<-|Hin].
  - assert (Hz : (w - mu) ^ 2 = 0) by lra.
    assert (Hd : w - mu = 0) by nra.
    lra.
  - apply IH; [lra|exact Hin].
Qed.

Lemma gram_det_sq_dev (x : list R) :
  0 < len x -> gram_det x = len x * sq_dev (mean x) x.
Proof.
  intros Hn. rewrite sq_dev_expand. unfold gram_det, mean. field. lra.
Qed.

Lemma gram_det_nonneg (x : list R) : 0 <= gram_det x.
Proof.
  destruct x as [|v x].
  - unfold gram_det, len. simpl. lra.
  - assert (Hn : 0 < len (v :: x)) by (apply len_pos; simpl; lia).
    rewrite gram_det_sq_dev by exact Hn.
    apply Rmult_le_pos; [lra|apply sq_dev_nonneg].
Qed.

(** Two different sample points make the design matrix of rank 2. *)
Lemma gram_det_distinct (x : list R) :
  (exists u v, In u x /\ In v x /\ u <> v) -> gram_det x <> 0.
Proof.
  intros (u & v & Hu & Hv & Huv) Hz.
  assert (Hn : 0 < len x).
  { apply len_pos. destruct x; [destruct Hu|simpl; lia]. }
  rewrite gram_det_sq_dev in Hz by exact Hn.
  apply Rmult_integral in Hz. destruct Hz as [Hz|Hz]; [lra|].
  apply Huv. rewrite (sq_dev_zero _ _ Hz u Hu), (sq_dev_zero _ _ Hz v Hv).
  reflexivity.
Qed.

(** Sample points that all have the same [x] make it of rank 1. *)
Lemma gram_det_constant (k : R) (x : list R) :
  (forall v, In v x -> v = k) -> gram_det x = 0.
Proof.
  intros Hk.
  assert (Hx : x = map (fun t => 0 * t + k) x).
  { clear -Hk. induction x as [|v x IH]; [reflexivity|].
    simpl. f_equal.
    - rewrite (Hk v (or_introl eq_refl)). lra.
    - apply IH. intros w Hw. apply Hk. right. exact Hw. }
  rewrite Hx, gram_det_affine. lra.
Qed.

(** A design matrix of rank 2 has no zero column. *)
Lemma gram_det_dot (x : list R) : gram_det x <> 0 -> dot x x <> 0.
Proof.
  intros Hd Hz. apply Hd.
  pose proof (gram_det_nonneg x) as Hp.
  unfold gram_det in *. rewrite Hz in *.
  pose proof (Rle_0_sqr (sum x)) as Hs. unfold Rsqr in Hs. lra.
Qed.

(** [len(y) * np.var(y)] is the sum of squared deviations from the mean. *)
Lemma len_var (y : list R) :
  0 < len y -> len y * var y = sq_dev (mean y) y.
Proof.
  intros Hn. unfold var. fold (sq_dev (mean y) y). field. lra.
Qed.

(** ** The least-squares fit *)

(** The fit on finite data of rank 2. *)
Lemma polyfit_rank2 (x y : list R) :
  length x = length y -> gram_det x <> 0 ->
  polyfit (map Fin x) y
  = let m := (len x * dot x y - sum x * sum y) / gram_det x in
    let c := (sum y * dot x x - sum x * dot x y) / gram_det x in
    Ok {| coeffs := (m, c);
          residuals := if (2 <? length x)%nat then [sse m c x y] else [] |}.
Proof.
  intros Hlen Hd. unfold polyfit.
  rewrite length_map.
  destruct (length x =? 0)%nat eqn:E0.
  - apply Nat.eqb_eq in E0. destruct x; [|discriminate].
    exfalso. apply Hd. unfold gram_det, len. simpl. lra.
  - rewrite <- Hlen, Nat.eqb_refl. simpl negb. cbv iota.
    rewrite all_finite_Fin.
    destruct (Req_dec_T (dot x x) 0) as [Hz|_].
    + exfalso. exact (gram_det_dot x Hd Hz).
    + destruct (Req_dec_T (gram_det x) 0) as [Hz|_]; [contradiction|].
      reflexivity.
Qed.

(** On exactly collinear data of rank 2 the fit recovers the line, and
    with three points or more it reports a zero residual. *)
Lemma polyfit_collinear (a b : R) (x : list R) :
  (3 <= length x)%nat -> gram_det x <> 0 ->
  polyfit (map Fin x) (map (fun v => a * v + b) x)
  = Ok {| coeffs := (a, b); residuals := [0] |}.
Proof.
  intros Hlen Hd.
  rewrite polyfit_rank2 by (rewrite ?length_map; auto).
  cbv zeta.
  rewrite dot_affine, sum_affine.
  assert (Hm : (len x * (a * dot x x + b * sum x)
                - sum x * (a * sum x + b * len x)) / gram_det x = a).
  { unfold gram_det in *. field. exact Hd. }
  assert (Hc : ((a * sum x + b * len x) * dot x x
                - sum x * (a * dot x x + b * sum x)) / gram_det x = b).
  { unfold gram_det in *. field. exact Hd. }
  rewrite Hm, Hc, sse_affine.
  destruct (2 <? length x)%nat eqn:E; [reflexivity|].
  apply Nat.ltb_ge in E. lia.
Qed.

(** The coefficients of the rank-2 fit solve the normal equations, hence
    no other line has a smaller sum of squared residuals: the closed form
    is the least-squares solution numpy documents. *)
Lemma sse_expand (m c : R) (x y : list R) :
  length x = length y ->
  sse m c x y
  = dot y y - 2 * m * dot x y - 2 * c * sum y
    + m * m * dot x x + 2 * m * c * sum x + c * c * len x.
Proof.
  unfold len. revert y. induction x as [|v x IH]; intros [|w y] Hlen;
    try discriminate.
  - simpl. lra.
  - injection Hlen as Hlen.
    change (sse m c (v :: x) (w :: y))
      with ((w - (m * v + c)) ^ 2 + sse m c x y).
    change (dot (w :: y) (w :: y)) with (w * w + dot y y).
    change (dot (v :: x) (w :: y)) with (v * w + dot x y).
    change (dot (v :: x) (v :: x)) with (v * v + dot x x).
    change (sum (w :: y)) with (w + sum y).
    change (sum (v :: x)) with (v + sum x).
    change (length (v :: x)) with (S (length x)).
    rewrite S_INR, (IH y Hlen). lra.
Qed.

Lemma polyfit_least_squares (x y : list R) (m c : R) :
  length x = length y -> gram_det x <> 0 ->
  m = (len x * dot x y - sum x * sum y) / gram_det x ->
  c = (sum y * dot x x - sum x * dot x y) / gram_det x ->
  forall m' c', sse m c x y <= sse m' c' x y.
Proof.
  intros Hlen Hd Hm Hc m' c'.
  assert (N1 : m * dot x x + c * sum x = dot x y).
  { subst m c. unfold gram_det in *. field. exact Hd. }
  assert (N2 : m * sum x + c * len x = sum y).
  { subst m c. unfold gram_det in *. field. exact Hd. }
  assert (Hdiff : sse m' c' x y - sse m c x y
                  = sse (m' - m) (c' - c) x (map (fun _ => 0) x)).
  { rewrite !sse_expand by (rewrite ?length_map; auto).
    assert (Z1 : dot (map (fun _ : R => 0) x) (map (fun _ : R => 0) x) = 0).
    { clear. induction x; simpl; lra. }
    assert (Z2 : dot x (map (fun _ : R => 0) x) = 0).
    { clear. induction x; simpl; lra. }
    assert (Z3 : sum (map (fun _ : R => 0) x) = 0).
    { clear. induction x; simpl; lra. }
    rewrite Z1, Z2, Z3, <- N1, <- N2. ring. }
  assert (Hpos : 0 <= sse (m' - m) (c' - c) x (map (fun _ => 0) x)).
  { clear. induction x as [|v x IH]; simpl; [lra|].
    pose proof (pow2_ge_0 (0 - ((m' - m) * v + (c' - c)))). simpl in H. lra. }
  lra.
Qed.

(** ** Running the two extrapolation functions *)

Lemma round_real_IZR (z : Z) (n : nat) : round_real (IZR z) n = IZR z.
Proof.
  unfold round_real.
  assert (Hp : 10 ^ n = IZR (10 ^ Z.of_nat n)).
  { rewrite <- pow_IZR. reflexivity. }
  assert (Hn : 10 ^ n <> 0) by (apply pow_nonzero; lra).
  rewrite Hp, <- mult_IZR, (rint_near _ (z * 10 ^ Z.of_nat n)) by lra.
  rewrite mult_IZR, <- Hp. field. exact Hn.
Qed.

(** With a zero residual, R-squared is 1 unless the dependent values have
    no variance, in which case it is [0 / 0]. *)
Lemma r_squared_zero_residual (y : list R) :
  len y * var y <> 0 -> r_squared_of 0 y = Fin 1.
Proof.
  intros H. unfold r_squared_of. simpl.
  destruct (Req_dec_T (len y * var y) 0) as [Hz|_]; [contradiction|].
  simpl. f_equal. unfold Rdiv. lra.
Qed.

Lemma r_squared_zero_variance (y : list R) :
  len y * var y = 0 -> r_squared_of 0 y = NaN.
Proof.
  intros H. unfold r_squared_of. simpl.
  destruct (Req_dec_T (len y * var y) 0) as [_|Hz]; [|contradiction].
  rewrite Rsign_zero. reflexivity.
Qed.

Lemma linear_run (x y : list R) (q m c s0 : R) (rest : list R) :
  polyfit (map Fin x) y
  = Ok {| coeffs := (m, c); residuals := s0 :: rest |} ->
  _get_linear_extrapolation x y q
  = ([EvPolyfit (map Fin x) y],
     Ok (ceil (round_real (m * q + c) 5), r_squared_of s0 y)).
Proof.
  intros H. unfold _get_linear_extrapolation, np_polyfit, bind, tell, lift.
  rewrite H. reflexivity.
Qed.

Lemma linear_run_no_residual (x y : list R) (q m c : R) :
  polyfit (map Fin x) y = Ok {| coeffs := (m, c); residuals := [] |} ->
  _get_linear_extrapolation x y q
  = ([EvPolyfit (map Fin x) y],
     Err index_error).
Proof.
  intros H. unfold _get_linear_extrapolation, np_polyfit, bind, tell, lift.
  rewrite H. reflexivity.
Qed.

Lemma linear_run_error (x y : list R) (q : R) (e : exn) :
  polyfit (map Fin x) y = Err e ->
  _get_linear_extrapolation x y q = ([EvPolyfit (map Fin x) y], Err e).
Proof.
  intros H. unfold _get_linear_extrapolation, np_polyfit, bind, tell, lift.
  rewrite H. reflexivity.
Qed.

Lemma logarithmic_run (x y : list R) (q m c s0 : R) (rest : list R) :
  polyfit (log x) y = Ok {| coeffs := (m, c); residuals := s0 :: rest |} ->
  0 < q ->
  _get_logarithmic_extrapolation x y q
  = ([EvPolyfit (log x) y], Ok (ceil (m * ln q + c), r_squared_of s0 y)).
Proof.
  intros H Hq.
  unfold _get_logarithmic_extrapolation, np_polyfit, bind, tell, lift.
  rewrite H. unfold log1. rewrite (Rsign_pos q Hq). reflexivity.
Qed.

Lemma logarithmic_run_no_residual (x y : list R) (q m c : R) :
  polyfit (log x) y = Ok {| coeffs := (m, c); residuals := [] |} ->
  _get_logarithmic_extrapolation x y q
  = ([EvPolyfit (log x) y],
     Err index_error).
Proof.
  intros H.
  unfold _get_logarithmic_extrapolation, np_polyfit, bind, tell, lift.
  rewrite H. reflexivity.
Qed.

Lemma logarithmic_run_error (x y : list R) (q : R) (e : exn) :
  polyfit (log x) y = Err e ->
  _get_logarithmic_extrapolation x y q = ([EvPolyfit (log x) y], Err e).
Proof.
  intros H.
  unfold _get_logarithmic_extrapolation, np_polyfit, bind, tell, lift.
  rewrite H. reflexivity.
Qed.

(** Either function starts by calling the fit. *)
Lemma linear_calls (x y : list R) (q : R) :
  calls (_get_linear_extrapolation x y q) = [EvPolyfit (map Fin x) y].
Proof.
  destruct (polyfit (map Fin x) y) as [[[m c] [|s0 rest]]|e] eqn:E.
  - rewrite (linear_run_no_residual _ _ _ _ _ E). reflexivity.
  - rewrite (linear_run _ _ _ _ _ _ _ E). reflexivity.
  - rewrite (linear_run_error _ _ _ _ E). reflexivity.
Qed.

Lemma logarithmic_calls (x y : list R) (q : R) :
  calls (_get_logarithmic_extrapolation x y q) = [EvPolyfit (log x) y].
Proof.
  unfold _get_logarithmic_extrapolation, np_polyfit, bind, tell, lift.
  destruct (polyfit (log x) y) as [[[m c] [|s0 rest]]|e]; simpl;
    try reflexivity.
  destruct (math_ceil _); reflexivity.
Qed.

(** The logarithm of positive values is finite. *)
Lemma log_positive (x : list R) :
  Forall (fun v => 0 < v) x -> log x = map Fin (map ln x).
Proof.
  induction 1 as [|v x Hv _ IH]; [reflexivity|].
  unfold log in *. simpl. rewrite IH. unfold log1.
  rewrite (Rsign_pos v Hv). reflexivity.
Qed.

Lemma map_ln_distinct (x : list R) :
  Forall (fun v => 0 < v) x ->
  (exists u v, In u x /\ In v x /\ u <> v) ->
  exists u v, In u (map ln x) /\ In v (map ln x) /\ u <> v.
Proof.
  intros Hpos (u & v & Hu & Hv & Huv).
  rewrite Forall_forall in Hpos.
  exists (ln u), (ln v). repeat split; try (apply in_map; assumption).
  intros Heq. apply Huv. apply ln_inv; auto.
Qed.

Lemma all_finite_length (x : list float) (xs : list R) :
  all_finite x = Some xs -> length xs = length x.
Proof.
  revert xs. induction x as [|[r| | |] x IH]; intros xs H; simpl in H;
    try discriminate.
  - injection H as <-. reflexivity.
  - destruct (all_finite x) as [l|]; [|discriminate].
    injection H as <-. simpl. rewrite (IH l eq_refl). reflexivity.
Qed.

(** With no more points than coefficients the residual array is empty. *)
Lemma polyfit_few_points (x : list float) (y : list R) (r : polyfit_result) :
  (length x <= 2)%nat -> polyfit x y = Ok r -> residuals r = [].
Proof.
  intros Hlen. unfold polyfit.
  destruct (length x =? 0)%nat; [discriminate|].
  destruct (negb (length x =? length y)%nat); [discriminate|].
  destruct (all_finite x) as [xs|] eqn:E; [|discriminate].
  apply all_finite_length in E.
  destruct (Req_dec_T (dot xs xs) 0); [discriminate|].
  destruct (Req_dec_T (gram_det xs) 0); intros H; injection H as <-;
    [reflexivity|].
  simpl. destruct (2 <? length xs)%nat eqn:E2; [|reflexivity].
  apply Nat.ltb_lt in E2. lia.
Qed.

Lemma linear_few_points (x y : list R) (q : R) :
  (length x <= 2)%nat ->
  exists e, outcome (_get_linear_extrapolation x y q) = Err e.
Proof.
  intros Hlen.
  destruct (polyfit (map Fin x) y) as [[[m c] res]|e] eqn:E.
  - pose proof (polyfit_few_points _ _ _
                  ltac:(rewrite length_map; exact Hlen) E) as Hres.
    simpl in Hres. subst res.
    rewrite (linear_run_no_residual _ _ _ _ _ E). eexists. reflexivity.
  - rewrite (linear_run_error _ _ _ _ E). eexists. reflexivity.
Qed.

Lemma logarithmic_few_points (x y : list R) (q : R) :
  (length x <= 2)%nat ->
  exists e, outcome (_get_logarithmic_extrapolation x y q) = Err e.
Proof.
  intros Hlen.
  destruct (polyfit (log x) y) as [[[m c] res]|e] eqn:E.
  - pose proof (polyfit_few_points _ _ _
                  ltac:(unfold log; rewrite length_map; exact Hlen) E) as Hres.
    simpl in Hres. subst res.
    rewrite (logarithmic_run_no_residual _ _ _ _ _ E). eexists. reflexivity.
  - rewrite (logarithmic_run_error _ _ _ _ E). eexists. reflexivity.
Qed.

(** The fit on a line, and its R-squared. *)
Lemma linear_on_line (a b q : R) (x : list R) :
  (3 <= length x)%nat -> gram_det x <> 0 ->
  _get_linear_extrapolation x (map (fun v => a * v + b) x) q
  = ([EvPolyfit (map Fin x) (map (fun v => a * v + b) x)],
     Ok (ceil (round_real (a * q + b) 5),
         r_squared_of 0 (map (fun v => a * v + b) x))).
Proof.
  intros Hlen Hd.
  apply (linear_run _ _ _ _ _ _ []).
  apply polyfit_collinear; assumption.
Qed.

Lemma len_var_gram (y : list R) :
  0 < len y -> len y * (len y * var y) = gram_det y.
Proof.
  intros Hn. rewrite len_var, gram_det_sq_dev by exact Hn. reflexivity.
Qed.

Lemma len_var_on_line (a b : R) (x : list R) :
  0 < len x ->
  len x * (len (map (fun v => a * v + b) x)
           * var (map (fun v => a * v + b) x))
  = a * a * gram_det x.
Proof.
  intros Hn.
  assert (Hl : len (map (fun v => a * v + b) x) = len x) by apply len_map.
  rewrite <- gram_det_affine, <- Hl at 1.
  rewrite <- Hl in Hn. apply len_var_gram. exact Hn.
Qed.

Lemma three_points_len (x : list R) : (3 <= length x)%nat -> 0 < len x.
Proof. intros H. apply len_pos. lia. Qed.

(** ** The curve fits *)

Lemma linear_collinear_run (a b q : R) (x : list R) :
  (3 <= length x)%nat ->
  a <> 0 ->
  (exists u v, In u x /\ In v x /\ u <> v) ->
  _get_linear_extrapolation x (map (fun v => a * v + b) x) q
  = ([EvPolyfit (map Fin x) (map (fun v => a * v + b) x)],
     Ok (ceil (round_real (a * q + b) 5), Fin 1)).
Proof.
  intros Hlen Ha Hx.
  pose proof (gram_det_distinct x Hx) as Hd.
  rewrite linear_on_line by assumption.
  do 3 f_equal.
  apply r_squared_zero_residual.
  intros Hz.
  pose proof (len_var_on_line a b x (three_points_len x Hlen)) as Hv.
  rewrite Hz, Rmult_0_r in Hv.
  symmetry in Hv. apply Rmult_integral in Hv. destruct Hv as [Hv|Hv].
  - apply Rmult_integral in Hv. tauto.
  - contradiction.
Qed.


Lemma ln_4 : ln 4 = 2 * ln 2.
Proof. replace 4 with (2 * 2) by lra. rewrite ln_mult by lra. lra. Qed.

Lemma ln_8 : ln 8 = 3 * ln 2.
Proof.
  replace 8 with (2 * 4) by lra. rewrite ln_mult by lra. rewrite ln_4. lra.
Qed.

Lemma ln_2_pos : 0 < ln 2.
Proof. rewrite <- ln_1. apply ln_increasing; lra. Qed.

(** The logarithmic family on data that is exactly logarithmic: the line
    is recovered in the transformed coordinate, R-squared is 1, and the
    projection is the ceiling of the fitted value, taken as it is. *)
Lemma logarithmic_collinear_run (a b q : R) (x : list R) :
  (3 <= length x)%nat ->
  a <> 0 ->
  Forall (fun v => 0 < v) x ->
  (exists u v, In u x /\ In v x /\ u <> v) ->
  0 < q ->
  _get_logarithmic_extrapolation x (map (fun v => a * ln v + b) x) q
  = ([EvPolyfit (log x) (map (fun v => a * ln v + b) x)],
     Ok (ceil (a * ln q + b), Fin 1)).
Proof.
  intros Hlen Ha Hpos Hx Hq.
  assert (Hl : length (map ln x) = length x) by apply length_map.
  assert (Hd : gram_det (map ln x) <> 0)
    by (apply gram_det_distinct, map_ln_distinct; assumption).
  assert (Hy : map (fun v => a * ln v + b) x
               = map (fun t => a * t + b) (map ln x))
    by (rewrite map_map; reflexivity).
  assert (E : polyfit (log x) (map (fun v => a * ln v + b) x)
              = Ok {| coeffs := (a, b); residuals := [0] |}).
  { rewrite Hy, (log_positive x Hpos).
    apply polyfit_collinear; [lia|exact Hd]. }
  rewrite (logarithmic_run _ _ _ _ _ _ _ E Hq).
  do 3 f_equal. rewrite Hy.
  apply r_squared_zero_residual. intros Hz.
  assert (Hn : 0 < len (map ln x)) by (apply len_pos; lia).
  pose proof (len_var_on_line a b (map ln x) Hn) as Hv.
  rewrite Hz, Rmult_0_r in Hv.
  symmetry in Hv. apply Rmult_integral in Hv. destruct Hv as [Hv|Hv].
  - apply Rmult_integral in Hv. tauto.
  - contradiction.
Qed.

(** Measurements that grow by one for each doubling of the step count:
    5, 6, 7 at 1, 2, 4 steps extrapolate to 8 at 8 steps. *)
Lemma logarithmic_doubling :
  _get_logarithmic_extrapolation [1; 2; 4] [5; 6; 7] 8
  = ([EvPolyfit [Fin (ln 1); Fin (ln 2); Fin (ln 4)] [5; 6; 7]],
     Ok (8%Z, Fin 1)).
Proof.
  pose proof ln_2_pos as HL.
  assert (Hpos : Forall (fun v => 0 < v) [1; 2; 4])
    by (repeat constructor; lra).
  pose proof (logarithmic_collinear_run (/ ln 2) 5 8 [1; 2; 4]) as H.
  rewrite (log_positive _ Hpos) in H. simpl map in H.
  rewrite ln_1, ln_4, ln_8 in H.
  replace (/ ln 2 * 0 + 5) with 5 in H by lra.
  replace (/ ln 2 * ln 2 + 5) with 6 in H by (field; lra).
  replace (/ ln 2 * (2 * ln 2) + 5) with 7 in H by (field; lra).
  replace (/ ln 2 * (3 * ln 2) + 5) with 8 in H by (field; lra).
  rewrite ceil_IZR in H. rewrite ln_1, ln_4. apply H.
  - simpl. lia.
  - apply Rinv_neq_0_compat. lra.
  - exact Hpos.
  - exists 1, 2. simpl. repeat split; auto. lra.
  - lra.
Qed.

(** Dependent values that are all equal lie on a horizontal line. *)
Lemma constant_on_line (k : R) (x y : list R) :
  length y = length x -> (forall v, In v y -> v = k) ->
  y = map (fun v => 0 * v + k) x.
Proof.
  revert y. induction x as [|a x IH]; intros [|b y] Hlen Hk;
    try discriminate; [reflexivity|].
  simpl. f_equal.
  - rewrite (Hk b (or_introl eq_refl)). lra.
  - apply IH; [simpl in Hlen; lia|].
    intros v Hv. apply Hk. right. exact Hv.
Qed.

Lemma zero_variance_on_line (k : R) (x : list R) :
  0 < len x ->
  len (map (fun v => 0 * v + k) x) * var (map (fun v => 0 * v + k) x) = 0.
Proof.
  intros Hn. pose proof (len_var_on_line 0 k x Hn) as Hv.
  rewrite !Rmult_0_l in Hv.
  apply Rmult_integral in Hv. destruct Hv as [Hv|Hv]; [lra|exact Hv].
Qed.

Lemma linear_zero_variance (k q : R) (x y : list R) :
  (3 <= length x)%nat -> length y = length x ->
  (forall v, In v y -> v = k) ->
  (exists u v, In u x /\ In v x /\ u <> v) ->
  outcome (_get_linear_extrapolation x y q) = Ok (ceil (round_real k 5), NaN).
Proof.
  intros Hlen Hy Hk Hx.
  rewrite (constant_on_line k x y Hy Hk).
  rewrite linear_on_line by (auto using gram_det_distinct).
  unfold outcome. cbn [snd].
  rewrite r_squared_zero_variance
    by (apply zero_variance_on_line, three_points_len, Hlen).
  replace (0 * q + k) with k by lra. reflexivity.
Qed.

Lemma all_finite_Some (x : list float) (xs : list R) :
  all_finite x = Some xs -> x = map Fin xs.
Proof.
  revert xs. induction x as [|[r| | |] x IH]; intros xs H; simpl in H;
    try discriminate.
  - injection H as <-. reflexivity.
  - destruct (all_finite x) as [l|]; [|discriminate].
    injection H as <-. simpl. rewrite (IH l eq_refl). reflexivity.
Qed.

(** The residual array is non-empty only for finite data of rank 2 with
    three points or more. *)
Lemma polyfit_residual_inv (x : list float) (y : list R)
    (fit : polyfit_result) (s0 : R) (rest : list R) :
  polyfit x y = Ok fit -> residuals fit = s0 :: rest ->
  exists xs,
    x = map Fin xs /\ length xs = length y
    /\ (3 <= length xs)%nat /\ gram_det xs <> 0.
Proof.
  unfold polyfit.
  destruct (length x =? 0)%nat; [discriminate|].
  destruct (length x =? length y)%nat eqn:El; [|discriminate].
  apply Nat.eqb_eq in El. cbn [negb].
  destruct (all_finite x) as [xs|] eqn:E; [|discriminate].
  pose proof (all_finite_length x xs E) as Hl.
  apply all_finite_Some in E.
  destruct (Req_dec_T (dot xs xs) 0); [discriminate|].
  destruct (Req_dec_T (gram_det xs) 0) as [|Hd]; intros H; injection H as <-;
    [discriminate|].
  cbn [residuals]. destruct (2 <? length xs)%nat eqn:E2; [|discriminate].
  apply Nat.ltb_lt in E2. intros _.
  exists xs. repeat split; auto; lia.
Qed.

Lemma linear_success_inv (x y : list R) (q : R) (p : Z) (r : float) :
  outcome (_get_linear_extrapolation x y q) = Ok (p, r) ->
  exists m c s0 rest,
    polyfit (map Fin x) y
    = Ok {| coeffs := (m, c); residuals := s0 :: rest |}
    /\ p = ceil (round_real (m * q + c) 5) /\ r = r_squared_of s0 y.
Proof.
  destruct (polyfit (map Fin x) y) as [[[m c] [|s0 rest]]|e] eqn:E.
  - rewrite (linear_run_no_residual _ _ _ _ _ E). discriminate.
  - rewrite (linear_run _ _ _ _ _ _ _ E). unfold outcome. cbn [snd].
    intros H. injection H as <- <-. exists m, c, s0, rest. auto.
  - rewrite (linear_run_error _ _ _ _ E). discriminate.
Qed.

Lemma logarithmic_success_inv (x y : list R) (q : R) (p : Z) (r : float) :
  outcome (_get_logarithmic_extrapolation x y q) = Ok (p, r) ->
  exists m c s0 rest,
    polyfit (log x) y = Ok {| coeffs := (m, c); residuals := s0 :: rest |}
    /\ math_ceil (fadd (fmul (Fin m) (log1 q)) (Fin c)) = Ok p
    /\ r = r_squared_of s0 y.
Proof.
  destruct (polyfit (log x) y) as [[[m c] [|s0 rest]]|e] eqn:E.
  - rewrite (logarithmic_run_no_residual _ _ _ _ _ E). discriminate.
  - unfold _get_logarithmic_extrapolation, np_polyfit, bind, tell, lift.
    rewrite E. cbn.
    destruct (math_ceil _) as [p'|e] eqn:Ec; cbn; [|discriminate].
    intros H. injection H as <- <-. exists m, c, s0, rest. auto.
  - rewrite (logarithmic_run_error _ _ _ _ E). discriminate.
Qed.

Lemma bind_error {A B} (m : M A) (k : A -> M B) (e : exn) :
  outcome m = Err e -> bind m k = (calls m, Err e).
Proof.
  destruct m as [tr [a|e']]; unfold outcome, calls; simpl; intros H;
    [discriminate|].
  injection H as ->. reflexivity.
Qed.

Lemma linear_two_distinct (x y : list R) (q : R) :
  length x = 2%nat -> length y = 2%nat ->
  gram_det x <> 0 ->
  outcome (_get_linear_extrapolation x y q)
  = Err index_error.
Proof.
  intros Hx Hy Hd.
  pose proof (polyfit_rank2 x y ltac:(congruence) Hd) as E.
  cbv zeta in E. rewrite Hx in E. change (2 <? 2)%nat with false in E.
  cbv iota in E.
  rewrite (linear_run_no_residual _ _ _ _ _ E). reflexivity.
Qed.

Lemma logarithmic_two_distinct (x y : list R) (q : R) :
  length x = 2%nat -> length y = 2%nat ->
  Forall (fun v => 0 < v) x ->
  (exists u v, In u x /\ In v x /\ u <> v) ->
  outcome (_get_logarithmic_extrapolation x y q)
  = Err index_error.
Proof.
  intros Hx Hy Hpos Hd.
  assert (Hl : length (map ln x) = 2%nat) by (rewrite length_map; exact Hx).
  pose proof (polyfit_rank2 (map ln x) y ltac:(congruence)
                (gram_det_distinct _ (map_ln_distinct x Hpos Hd))) as E.
  cbv zeta in E. rewrite Hl in E. change (2 <? 2)%nat with false in E.
  cbv iota in E.
  rewrite <- (log_positive x Hpos) in E.
  rewrite (logarithmic_run_no_residual _ _ _ _ _ E). reflexivity.
Qed.

Lemma graph_data_few_points
    (self : ExtrapolationResourceEstimator.t)
    (data : list ResourceInfo.t) (program : QuantumProgram.t) :
  (length (ExtrapolationResourceEstimator.steps_to_extrapolate_from self)
   <= 2)%nat ->
  exists e, outcome (_get_extrapolated_graph_data self data program) = Err e.
Proof.
  intros Hlen.
  destruct (linear_few_points
              (map IZR
                 (ExtrapolationResourceEstimator.steps_to_extrapolate_from
                    self))
              (map ResourceInfo.n_logical_qubits data)
              (IZR (QuantumProgram.steps program))) as [e He].
  { rewrite length_map. exact Hlen. }
  exists e. unfold _get_extrapolated_graph_data.
  rewrite (bind_error _ _ e He). reflexivity.
Qed.

(** C4 (as amended).  With exactly two sample points neither fit succeeds
    and no R-squared is returned: [np.polyfit] gives an empty residual
    array when there are no more points than coefficients, and reading its
    first entry raises an IndexError (whenever the two [x] differ, and
    are positive for the logarithmic family).  An estimator configured
    with two step counts therefore fails for both metrics. *)
Theorem two_points_fit_fails (x y : list R) (q : R) :
  length x = 2%nat -> length y = 2%nat ->
  (exists e, outcome (_get_linear_extrapolation x y q) = Err e)
  /\ (exists e, outcome (_get_logarithmic_extrapolation x y q) = Err e)
  /\ ((exists u v, In u x /\ In v x /\ u <> v) ->
      outcome (_get_linear_extrapolation x y q)
      = Err index_error
      /\ (Forall (fun v => 0 < v) x ->
          outcome (_get_logarithmic_extrapolation x y q)
          = Err index_error))
  /\ (forall self data program,
        length (ExtrapolationResourceEstimator.steps_to_extrapolate_from self)
        = 2%nat ->
        exists e,
          outcome (_get_extrapolated_graph_data self data program) = Err e).
Proof.
  intros Hx Hy. repeat split.
  - apply linear_few_points. lia.
  - apply logarithmic_few_points. lia.
  - apply linear_two_distinct; auto using gram_det_distinct.
  - intros Hpos. apply logarithmic_two_distinct; assumption.
  - intros self data program Hs. apply graph_data_few_points. lia.
Qed.

Lemma two_points_fit_fails_witness :
  outcome (_get_linear_extrapolation [10; 20] [100; 200] 1000)
  = Err index_error
  /\ outcome (_get_logarithmic_extrapolation [10; 20] [100; 200] 1000)
     = Err index_error.
Proof.
  destruct (two_points_fit_fails [10; 20] [100; 200] 1000 eq_refl eq_refl)
    as (_ & _ & H & _).
  destruct H as [H1 H2].
  - exists 10, 20. simpl. repeat split; auto. lra.
  - split; [exact H1|]. apply H2. repeat constructor; lra.
Defined.

(** C4 fails as stated: on the two points (1, 3) and (2, 5) neither
    family returns an R-squared of 1; both raise an IndexError. *)
Lemma two_points_counterexample :
  outcome (_get_linear_extrapolation [1; 2] [3; 5] 3)
  = Err index_error
  /\ outcome (_get_logarithmic_extrapolation [1; 2] [3; 5] 3)
     = Err index_error.
Proof.
  assert (Hd : exists u v, In u [1; 2] /\ In v [1; 2] /\ u <> v).
  { exists 1, 2. simpl. repeat split; auto. lra. }
  split.
  - apply linear_two_distinct; auto using gram_det_distinct.
  - apply logarithmic_two_distinct; auto. repeat constructor; lra.
Qed.

(** The linear family projects as the specification says, whatever the
    data: the fitted line is evaluated, rounded to 5 places, and the
    ceiling is taken. *)
Lemma linear_projection_rounded (x y : list R) (q : R) (p : Z) (r2 : float) :
  outcome (_get_linear_extrapolation x y q) = Ok (p, r2) ->
  exists m c res,
    polyfit (map Fin x) y = Ok {| coeffs := (m, c); residuals := res |}
    /\ p = spec_projection m c q.
Proof.
  destruct (polyfit (map Fin x) y) as [[[m c] [|s0 rest]]|e] eqn:E.
  - rewrite (linear_run_no_residual _ _ _ _ _ E). discriminate.
  - rewrite (linear_run _ _ _ _ _ _ _ E). unfold outcome. cbn [snd].
    intros H. injection H as <- _. exists m, c, (s0 :: rest).
    split; reflexivity.
  - rewrite (linear_run_error _ _ _ _ E). discriminate.
Qed.

(** C2, at the failing input.  For the samples [x = 1, 2, 4] and
    [y = 3, 3, 3.000003] and the query point 8, the fitted line has the
    value 3.000004 at [ln 8]: the specification's projection (round to 5
    places, then ceiling) is 3, and the logarithmic extrapolation, which
    takes the ceiling without rounding, returns 4. *)
Theorem logarithmic_projection_not_rounded :
  exists m c s0,
    polyfit (log [1; 2; 4]) [3; 3; 3000003 / 1000000]
    = Ok {| coeffs := (m, c); residuals := [s0] |}
    /\ m * ln 8 + c = 3000004 / 1000000
    /\ spec_projection m c (ln 8) = 3%Z
    /\ outcome (_get_logarithmic_extrapolation
                  [1; 2; 4] [3; 3; 3000003 / 1000000] 8)
       = Ok (4%Z, r_squared_of s0 [3; 3; 3000003 / 1000000]).
Proof.
  pose proof ln_2_pos as HL.
  assert (Hpos : Forall (fun v => 0 < v) [1; 2; 4])
    by (repeat constructor; lra).
  assert (Hd : gram_det (map ln [1; 2; 4]) <> 0).
  { unfold gram_det, len. simpl. rewrite ln_1, ln_4. nra. }
  pose proof (polyfit_rank2 (map ln [1; 2; 4]) [3; 3; 3000003 / 1000000]
                eq_refl Hd) as E.
  cbv zeta in E. rewrite <- (log_positive _ Hpos) in E.
  simpl length in E. change (2 <? 3)%nat with true in E. cbv iota in E.
  match type of E with
  | _ = Ok {| coeffs := (?fm, ?fc); residuals := [?fs] |} =>
      set (m := fm) in *; set (c := fc) in *; set (s0 := fs) in *
  end.
  assert (Hv : m * ln 8 + c = 3000004 / 1000000).
  { subst m c. unfold gram_det, len. simpl.
    rewrite ln_1, ln_4, ln_8. field. nra. }
  exists m, c, s0. split; [exact E|]. split; [exact Hv|]. split.
  - unfold spec_projection, round_real. rewrite Hv.
    rewrite (rint_near _ 300000) by (simpl; lra).
    apply ceil_spec. simpl. lra.
  - rewrite (logarithmic_run _ _ _ _ _ _ _ E) by lra.
    unfold outcome. cbn [snd]. rewrite Hv.
    rewrite (ceil_spec _ 4) by lra. reflexivity.
Qed.

(** What [np.log] gives, value by value. *)
Lemma log1_cases (v : R) :
  (0 < v -> log1 v = Fin (ln v))
  /\ (v = 0 -> log1 v = NInf)
  /\ (v < 0 -> log1 v = NaN).
Proof.
  unfold log1. repeat split; intros H.
  - rewrite (Rsign_pos v H). reflexivity.
  - subst v. rewrite Rsign_zero. reflexivity.
  - rewrite (Rsign_neg v H). reflexivity.
Qed.

Lemma log_nonpositive (x : list R) :
  Exists (fun v => v <= 0) x ->
  Exists (fun t => t = NaN \/ t = NInf) (log x).
Proof.
  unfold log. induction 1 as [v x Hv|v x _ IH]; simpl.
  - apply Exists_cons_hd.
    destruct (log1_cases v) as (_ & H0 & Hneg).
    destruct Hv as [Hv|Hv]; [left; auto|right; auto].
  - apply Exists_cons_tl. exact IH.
Qed.

Lemma all_finite_special (x : list float) :
  Exists (fun t => t = NaN \/ t = NInf) x -> all_finite x = None.
Proof.
  induction 1 as [t x [-> | ->]|t x _ IH]; simpl; try reflexivity.
  rewrite IH. destruct t; reflexivity.
Qed.

Lemma polyfit_special (x : list float) (y : list R) :
  Exists (fun t => t = NaN \/ t = NInf) x -> exists e, polyfit x y = Err e.
Proof.
  intros H. unfold polyfit.
  destruct (length x =? 0)%nat; [eexists; reflexivity|].
  destruct (negb (length x =? length y)%nat); [eexists; reflexivity|].
  rewrite (all_finite_special x H). eexists; reflexivity.
Qed.

Lemma logarithmic_fit_attempted (x y : list R) (q : R) :
  fit_attempted (_get_logarithmic_extrapolation x y q) = true.
Proof. unfold fit_attempted. rewrite logarithmic_calls. reflexivity. Qed.

(** C3 (as amended).  A logarithmic fit whose independent values contain a
    value [<= 0] does not fail at the transformation: [np.log] returns
    [nan] or [-inf] for such a value without raising, [np.polyfit] is
    called on the transformed array, and the call fails with the error the
    fit raises, never with a domain error that precedes the fit. *)
Theorem logarithm_of_nonpositive_reaches_fit (x y : list R) (q : R) :
  Exists (fun v => v <= 0) x ->
  Exists (fun t => t = NaN \/ t = NInf) (log x)
  /\ calls (_get_logarithmic_extrapolation x y q) = [EvPolyfit (log x) y]
  /\ (exists e, polyfit (log x) y = Err e
                /\ outcome (_get_logarithmic_extrapolation x y q) = Err e)
  /\ ~ domain_error_before_fit (_get_logarithmic_extrapolation x y q).
Proof.
  intros Hx. pose proof (log_nonpositive x Hx) as Hs.
  split; [exact Hs|]. split; [apply logarithmic_calls|]. split.
  - destruct (polyfit_special (log x) y Hs) as [e He].
    exists e. split; [exact He|].
    rewrite (logarithmic_run_error _ _ _ _ He). reflexivity.
  - intros [Hf _]. rewrite logarithmic_fit_attempted in Hf. discriminate.
Qed.

Lemma logarithm_of_nonpositive_reaches_fit_witness :
  Exists (fun t => t = NaN \/ t = NInf) (log [0; 1; 2])
  /\ calls (_get_logarithmic_extrapolation [0; 1; 2] [1; 2; 3] 5)
     = [EvPolyfit (log [0; 1; 2]) [1; 2; 3]]
  /\ (exists e,
        polyfit (log [0; 1; 2]) [1; 2; 3] = Err e
        /\ outcome (_get_logarithmic_extrapolation [0; 1; 2] [1; 2; 3] 5)
           = Err e)
  /\ ~ domain_error_before_fit
         (_get_logarithmic_extrapolation [0; 1; 2] [1; 2; 3] 5).
Proof.
  apply (logarithm_of_nonpositive_reaches_fit [0; 1; 2] [1; 2; 3] 5).
  apply Exists_cons_hd. lra.
Defined.

(** C3 fails as stated: with the independent values 0, 1, 2 the call does
    not end in a domain error raised before the fit; the fit is attempted,
    on an array that starts with [-inf]. *)
Lemma logarithm_domain_counterexample :
  ~ domain_error_before_fit
      (_get_logarithmic_extrapolation [0; 1; 2] [1; 2; 3] 5)
  /\ calls (_get_logarithmic_extrapolation [0; 1; 2] [1; 2; 3] 5)
     = [EvPolyfit [NInf; Fin (ln 1); Fin (ln 2)] [1; 2; 3]].
Proof.
  split.
  - intros [Hf _]. rewrite logarithmic_fit_attempted in Hf. discriminate.
  - rewrite logarithmic_calls. unfold log. simpl map.
    destruct (log1_cases 0) as (_ & H0 & _).
    destruct (log1_cases 1) as (H1 & _ & _).
    destruct (log1_cases 2) as (H2 & _ & _).
    rewrite (H0 eq_refl), H1, H2 by lra. reflexivity.
Qed.

(** ** The orchestrator *)

Section GraphData.

Variable self : ExtrapolationResourceEstimator.t.
Variable data : list ResourceInfo.t.
Variable program : QuantumProgram.t.

(** [_get_extrapolated_graph_data] runs the degree fit, then the
    measurement-step fit, then builds the record. *)
Lemma graph_data_unfold :
  _get_extrapolated_graph_data self data program
  = (d <- degree_fit self data program ;;
     s <- measurement_steps_fit self data program ;;
     ret (graph_data_of program d s)).
Proof.
  unfold _get_extrapolated_graph_data, degree_fit, measurement_steps_fit,
    graph_data_of, bind.
  destruct (_get_linear_extrapolation _ _ _) as [tr [[d r1]|e]];
    [|reflexivity].
  cbv zeta.
  destruct (if (_ =? "logarithmic")%string then _ else _) as [tr' [[s r2]|e]];
    reflexivity.
Qed.

Lemma graph_data_degree_error (e : exn) :
  outcome (degree_fit self data program) = Err e ->
  _get_extrapolated_graph_data self data program
  = (calls (degree_fit self data program), Err e).
Proof.
  intros H. rewrite graph_data_unfold. apply bind_error. exact H.
Qed.

Lemma graph_data_steps_error (d : Z * float) (e : exn) :
  outcome (degree_fit self data program) = Ok d ->
  outcome (measurement_steps_fit self data program) = Err e ->
  _get_extrapolated_graph_data self data program
  = (calls (degree_fit self data program)
     ++ calls (measurement_steps_fit self data program), Err e).
Proof.
  intros Hd Hs. rewrite graph_data_unfold. unfold bind, outcome, calls in *.
  destruct (degree_fit self data program) as [tr r]. cbn [fst snd] in *.
  subst r.
  destruct (measurement_steps_fit self data program) as [tr' r'].
  cbn [fst snd] in *. subst r'. reflexivity.
Qed.

Lemma graph_data_run (d s : Z * float) :
  outcome (degree_fit self data program) = Ok d ->
  outcome (measurement_steps_fit self data program) = Ok s ->
  _get_extrapolated_graph_data self data program
  = (calls (degree_fit self data program)
     ++ calls (measurement_steps_fit self data program),
     Ok (graph_data_of program d s)).
Proof.
  intros Hd Hs. rewrite graph_data_unfold. unfold bind, outcome, calls in *.
  destruct (degree_fit self data program) as [tr r]. cbn [fst snd] in *.
  subst r.
  destruct (measurement_steps_fit self data program) as [tr' r'].
  cbn [fst snd] in *. subst r'. unfold ret. rewrite app_nil_r. reflexivity.
Qed.

(** A successful run is made of two successful fits. *)
Lemma graph_data_success (g : ExtrapolatedGraphData.t) :
  outcome (_get_extrapolated_graph_data self data program) = Ok g ->
  exists d s,
    outcome (degree_fit self data program) = Ok d
    /\ outcome (measurement_steps_fit self data program) = Ok s
    /\ g = graph_data_of program d s.
Proof.
  destruct (outcome (degree_fit self data program)) as [d|e] eqn:Hd.
  - destruct (outcome (measurement_steps_fit self data program))
      as [s|e] eqn:Hs.
    + rewrite (graph_data_run d s Hd Hs). unfold outcome. cbn [snd].
      intros H. injection H as <-. exists d, s. auto.
    + rewrite (graph_data_steps_error d e Hd Hs). discriminate.
  - rewrite (graph_data_degree_error e Hd). discriminate.
Qed.

End GraphData.

(** The fits of the worked instance. *)
Lemma three_steps_distinct :
  exists u v, In u [10; 20; 30] /\ In v [10; 20; 30] /\ u <> v.
Proof. exists 10, 20. simpl. repeat split; auto. lra. Qed.

Lemma sample_degree_fit (fit_type : string) :
  degree_fit (estimator [10; 20; 30]%Z fit_type) sample_data sample_program
  = ([EvPolyfit [Fin 10; Fin 20; Fin 30] [100; 200; 300]],
     Ok (10000%Z, Fin 1)).
Proof.
  unfold degree_fit. simpl map. cbn [QuantumProgram.steps sample_program].
  pose proof (linear_collinear_run 10 0 1000 [10; 20; 30]
                ltac:(simpl; lia) ltac:(lra) three_steps_distinct) as H.
  simpl map in H.
  replace (10 * 10 + 0) with 100 in H by lra.
  replace (10 * 20 + 0) with 200 in H by lra.
  replace (10 * 30 + 0) with 300 in H by lra.
  replace (10 * 1000 + 0) with 10000 in H by lra.
  rewrite (round_real_IZR 10000 5), ceil_IZR in H. exact H.
Qed.

Lemma sample_linear_steps_fit :
  measurement_steps_fit (estimator [10; 20; 30]%Z "linear")
    sample_data sample_program
  = ([EvPolyfit [Fin 10; Fin 20; Fin 30] [50; 60; 70]], Ok (1040%Z, Fin 1)).
Proof.
  unfold measurement_steps_fit. simpl map.
  cbn [QuantumProgram.steps sample_program
       ExtrapolationResourceEstimator.n_measurement_steps_fit_type estimator].
  change ("linear" =? "logarithmic")%string with false.
  change ("linear" =? "linear")%string with true. cbv iota zeta.
  pose proof (linear_collinear_run 1 40 1000 [10; 20; 30]
                ltac:(simpl; lia) ltac:(lra) three_steps_distinct) as H.
  simpl map in H.
  replace (1 * 10 + 40) with 50 in H by lra.
  replace (1 * 20 + 40) with 60 in H by lra.
  replace (1 * 30 + 40) with 70 in H by lra.
  replace (1 * 1000 + 40) with 1040 in H by lra.
  rewrite (round_real_IZR 1040 5), ceil_IZR in H. exact H.
Qed.

Lemma sample_graph_data_run :
  _get_extrapolated_graph_data (estimator [10; 20; 30]%Z "linear")
    sample_data sample_program
  = ([EvPolyfit [Fin 10; Fin 20; Fin 30] [100; 200; 300];
      EvPolyfit [Fin 10; Fin 20; Fin 30] [50; 60; 70]],
     Ok sample_graph_data).
Proof.
  rewrite (graph_data_run _ _ _ (10000%Z, Fin 1) (1040%Z, Fin 1)).
  - rewrite sample_degree_fit, sample_linear_steps_fit. reflexivity.
  - rewrite sample_degree_fit. reflexivity.
  - rewrite sample_linear_steps_fit. reflexivity.
Qed.

Lemma unknown_fit_type_raises
    (self : ExtrapolationResourceEstimator.t)
    (data : list ResourceInfo.t) (program : QuantumProgram.t) :
  ExtrapolationResourceEstimator.n_measurement_steps_fit_type self
  <> "logarithmic"%string ->
  ExtrapolationResourceEstimator.n_measurement_steps_fit_type self
  <> "linear"%string ->
  measurement_steps_fit self data program
  = ([], Err (ValueError
                (fit_type_message
                   (ExtrapolationResourceEstimator.n_measurement_steps_fit_type
                      self)))).
Proof.
  intros H1 H2. unfold measurement_steps_fit. cbv zeta.
  apply String.eqb_neq in H1, H2. rewrite H1, H2. reflexivity.
Qed.

(** C5 (as amended).  For every fit-type string other than 'logarithmic'
    and 'linear' the extrapolation fails, but not before any work: the
    degree fit runs first, and only that fit.  When it succeeds the failure
    is the ValueError whose message names the two accepted values and the
    invalid one; when it fails, its own error is what the caller gets. *)
Theorem unknown_fit_type_error
    (self : ExtrapolationResourceEstimator.t)
    (data : list ResourceInfo.t) (program : QuantumProgram.t) :
  ExtrapolationResourceEstimator.n_measurement_steps_fit_type self
  <> "logarithmic"%string ->
  ExtrapolationResourceEstimator.n_measurement_steps_fit_type self
  <> "linear"%string ->
  (exists e,
     outcome (_get_extrapolated_graph_data self data program) = Err e)
  /\ calls (_get_extrapolated_graph_data self data program)
     = calls (degree_fit self data program)
  /\ (forall d,
        outcome (degree_fit self data program) = Ok d ->
        outcome (_get_extrapolated_graph_data self data program)
        = Err (ValueError
                 ("n_measurement_steps_fit_type must be either "
                  ++ "'logarithmic' or 'linear', not "
                  ++ ExtrapolationResourceEstimator.n_measurement_steps_fit_type
                       self)))
  /\ (forall e,
        outcome (degree_fit self data program) = Err e ->
        outcome (_get_extrapolated_graph_data self data program) = Err e).
Proof.
  intros H1 H2.
  pose proof (unknown_fit_type_raises self data program H1 H2) as Hs.
  destruct (outcome (degree_fit self data program)) as [d|e] eqn:Hd.
  - rewrite (graph_data_steps_error self data program d _ Hd
               ltac:(rewrite Hs; reflexivity)).
    rewrite Hs. unfold outcome, calls. cbn [fst snd]. rewrite app_nil_r.
    repeat split.
    + eexists; reflexivity.
    + discriminate.
  - rewrite (graph_data_degree_error self data program e Hd).
    unfold outcome, calls. cbn [fst snd]. repeat split.
    + eexists; reflexivity.
    + discriminate.
    + intros e' He'. injection He' as <-. reflexivity.
Qed.

Lemma unknown_fit_type_error_witness :
  outcome (_get_extrapolated_graph_data
             (estimator [10; 20; 30]%Z "exponential")
             sample_data sample_program)
  = Err (ValueError
           ("n_measurement_steps_fit_type must be either "
            ++ "'logarithmic' or 'linear', not exponential")).
Proof.
  destruct (unknown_fit_type_error (estimator [10; 20; 30]%Z "exponential")
              sample_data sample_program) as (_ & _ & H & _).
  - discriminate.
  - discriminate.
  - apply (H (10000%Z, Fin 1)). rewrite sample_degree_fit. reflexivity.
Defined.

(** C5 fails as stated: with two samples and the fit type 'exponential'
    the caller gets the IndexError of the degree fit, which has run, and
    no configuration error. *)
Lemma unknown_fit_type_counterexample :
  _get_extrapolated_graph_data (estimator [10; 20]%Z "exponential")
    two_samples sample_program
  = ([EvPolyfit [Fin 10; Fin 20] [100; 200]],
     Err index_error).
Proof.
  assert (Hd : outcome (degree_fit (estimator [10; 20]%Z "exponential")
                          two_samples sample_program)
               = Err index_error).
  { unfold degree_fit. apply linear_two_distinct; try reflexivity.
    apply gram_det_distinct. exists 10, 20. simpl. repeat split; auto. lra. }
  rewrite (graph_data_degree_error _ _ _ _ Hd).
  unfold degree_fit. rewrite linear_calls. reflexivity.
Qed.

(** C6.  Whatever the configured measurement-step family, the degree
    projection and its R-squared in the extrapolated graph data are those
    of a direct call to [_get_linear_extrapolation] on the step counts, the
    samples' degree metric and the target step count; two estimators that
    differ in the configured family only give the same degree projection. *)
Theorem degree_metric_is_linear
    (self : ExtrapolationResourceEstimator.t)
    (data : list ResourceInfo.t) (program : QuantumProgram.t)
    (g : ExtrapolatedGraphData.t) :
  outcome (_get_extrapolated_graph_data self data program) = Ok g ->
  outcome (_get_linear_extrapolation
             (map IZR (ExtrapolationResourceEstimator.steps_to_extrapolate_from
                         self))
             (map ResourceInfo.n_logical_qubits data)
             (IZR (QuantumProgram.steps program)))
  = Ok (ExtrapolatedGraphData.max_graph_degree g,
        ExtrapolatedGraphData.max_graph_degree_r_squared g)
  /\ (forall fit_type g',
        outcome (_get_extrapolated_graph_data
                   (estimator
                      (ExtrapolationResourceEstimator.steps_to_extrapolate_from
                         self) fit_type)
                   data program) = Ok g' ->
        ExtrapolatedGraphData.max_graph_degree g'
        = ExtrapolatedGraphData.max_graph_degree g
        /\ ExtrapolatedGraphData.max_graph_degree_r_squared g'
           = ExtrapolatedGraphData.max_graph_degree_r_squared g).
Proof.
  intros H.
  destruct (graph_data_success self data program g H)
    as ([d r1] & s & Hd & _ & ->).
  unfold degree_fit in Hd. split; [exact Hd|].
  intros fit_type g' H'.
  destruct (graph_data_success _ data program g' H')
    as ([d' r1'] & s' & Hd' & _ & ->).
  unfold degree_fit in Hd'.
  cbn [ExtrapolationResourceEstimator.steps_to_extrapolate_from estimator]
    in Hd'.
  rewrite Hd in Hd'. injection Hd' as <- <-. split; reflexivity.
Qed.

Lemma degree_metric_is_linear_witness :
  outcome (_get_linear_extrapolation
             (map IZR [10; 20; 30]%Z)
             (map ResourceInfo.n_logical_qubits sample_data)
             (IZR 1000))
  = Ok (10000%Z, Fin 1).
Proof.
  destruct (degree_metric_is_linear (estimator [10; 20; 30]%Z "linear")
              sample_data sample_program sample_graph_data) as [H _].
  - rewrite sample_graph_data_run. reflexivity.
  - exact H.
Defined.

(** The graph data always has the gate sum as its node count. *)
Lemma graph_data_n_nodes
    (self : ExtrapolationResourceEstimator.t)
    (data : list ResourceInfo.t) (program : QuantumProgram.t)
    (g : ExtrapolatedGraphData.t) :
  outcome (_get_extrapolated_graph_data self data program) = Ok g ->
  ExtrapolatedGraphData.n_nodes g
  = (QuantumProgram.n_t_gates program
     + QuantumProgram.n_rotation_gates program)%Z
  /\ ExtrapolatedGraphData.n_t_gates g = QuantumProgram.n_t_gates program
  /\ ExtrapolatedGraphData.n_rotation_gates g
     = QuantumProgram.n_rotation_gates program.
Proof.
  intros H.
  destruct (graph_data_success self data program g H) as (d & s & _ & _ & ->).
  repeat split.
Qed.

(** [_get_extrapolated_graph_data] calls fits only. *)
Lemma graph_data_calls_fits
    (self : ExtrapolationResourceEstimator.t)
    (data : list ResourceInfo.t) (program : QuantumProgram.t) :
  Forall (fun e => is_fit e = true)
    (calls (_get_extrapolated_graph_data self data program)).
Proof.
  assert (Hd : Forall (fun e => is_fit e = true)
                 (calls (degree_fit self data program))).
  { unfold degree_fit. rewrite linear_calls. repeat constructor. }
  assert (Hs : Forall (fun e => is_fit e = true)
                 (calls (measurement_steps_fit self data program))).
  { unfold measurement_steps_fit. cbv zeta.
    destruct (_ =? "logarithmic")%string;
      [rewrite logarithmic_calls; repeat constructor|].
    destruct (_ =? "linear")%string;
      [rewrite linear_calls; repeat constructor|constructor]. }
  destruct (outcome (degree_fit self data program)) as [d|e] eqn:Ed.
  - destruct (outcome (measurement_steps_fit self data program))
      as [s|e] eqn:Es.
    + rewrite (graph_data_run _ _ _ d s Ed Es). apply Forall_app. auto.
    + rewrite (graph_data_steps_error _ _ _ d e Ed Es). apply Forall_app. auto.
  - rewrite (graph_data_degree_error _ _ _ e Ed). exact Hd.
Qed.

Section Report.

Variable est : downstream.
Variable self : ExtrapolationResourceEstimator.t.
Variable ad : AlgorithmImplementation.t.
Variable data : list ResourceInfo.t.

Lemma estimate_unfold (program : QuantumProgram.t) :
  AlgorithmImplementation.program ad = AQuantumProgram program ->
  estimate_via_extrapolation est self ad data
  = (g <- _get_extrapolated_graph_data self data program ;;
     r <- estimate_resources est self g ad ;;
     ret (report_of program data g r)).
Proof.
  intros H. unfold estimate_via_extrapolation. rewrite H. reflexivity.
Qed.

Lemma estimate_run (program : QuantumProgram.t)
    (g : ExtrapolatedGraphData.t) (r : ResourceInfo.t) :
  AlgorithmImplementation.program ad = AQuantumProgram program ->
  outcome (_get_extrapolated_graph_data self data program) = Ok g ->
  est self g ad = Ok r ->
  estimate_via_extrapolation est self ad data
  = (calls (_get_extrapolated_graph_data self data program)
     ++ [EvEstimateResources g],
     Ok (report_of program data g r)).
Proof.
  intros Hp Hg Hr. rewrite (estimate_unfold program Hp).
  unfold bind, estimate_resources, tell, lift, ret, outcome, calls in *.
  destruct (_get_extrapolated_graph_data self data program) as [tr res].
  cbn [fst snd] in *. subst res. rewrite Hr. reflexivity.
Qed.

Lemma estimate_downstream_error (program : QuantumProgram.t)
    (g : ExtrapolatedGraphData.t) (e : exn) :
  AlgorithmImplementation.program ad = AQuantumProgram program ->
  outcome (_get_extrapolated_graph_data self data program) = Ok g ->
  est self g ad = Err e ->
  estimate_via_extrapolation est self ad data
  = (calls (_get_extrapolated_graph_data self data program)
     ++ [EvEstimateResources g], Err e).
Proof.
  intros Hp Hg Hr. rewrite (estimate_unfold program Hp).
  unfold bind, estimate_resources, tell, lift, ret, outcome, calls in *.
  destruct (_get_extrapolated_graph_data self data program) as [tr res].
  cbn [fst snd] in *. subst res. rewrite Hr. reflexivity.
Qed.

Lemma estimate_graph_data_error (program : QuantumProgram.t) (e : exn) :
  AlgorithmImplementation.program ad = AQuantumProgram program ->
  outcome (_get_extrapolated_graph_data self data program) = Err e ->
  estimate_via_extrapolation est self ad data
  = (calls (_get_extrapolated_graph_data self data program), Err e).
Proof.
  intros Hp Hg. rewrite (estimate_unfold program Hp).
  apply bind_error. exact Hg.
Qed.

(** A successful call: a [QuantumProgram], a successful extrapolation, a
    successful downstream computation, and the report built from them. *)
Lemma estimate_success (report : ExtrapolatedResourceInfo.t) :
  outcome (estimate_via_extrapolation est self ad data) = Ok report ->
  exists program g r,
    AlgorithmImplementation.program ad = AQuantumProgram program
    /\ outcome (_get_extrapolated_graph_data self data program) = Ok g
    /\ est self g ad = Ok r
    /\ calls (estimate_via_extrapolation est self ad data)
       = calls (_get_extrapolated_graph_data self data program)
         ++ [EvEstimateResources g]
    /\ report = report_of program data g r.
Proof.
  destruct (AlgorithmImplementation.program ad) as [program|] eqn:Hp.
  - destruct (outcome (_get_extrapolated_graph_data self data program))
      as [g|e] eqn:Hg.
    + destruct (est self g ad) as [r|e] eqn:Hr.
      * rewrite (estimate_run program g r Hp Hg Hr).
        unfold outcome, calls. cbn [fst snd].
        intros H. injection H as <-. exists program, g, r. auto.
      * rewrite (estimate_downstream_error program g e Hp Hg Hr).
        discriminate.
    + rewrite (estimate_graph_data_error program e Hp Hg). discriminate.
  - unfold estimate_via_extrapolation. rewrite Hp. discriminate.
Qed.

End Report.

Lemma sample_estimate_run :
  estimate_via_extrapolation echo_downstream
    (estimator [10; 20; 30]%Z "linear") sample_description sample_data
  = ([EvPolyfit [Fin 10; Fin 20; Fin 30] [100; 200; 300];
      EvPolyfit [Fin 10; Fin 20; Fin 30] [50; 60; 70];
      EvEstimateResources sample_graph_data],
     Ok sample_report).
Proof.
  rewrite (estimate_run echo_downstream _ sample_description sample_data
             sample_program sample_graph_data sample_resource_info).
  - rewrite sample_graph_data_run. reflexivity.
  - reflexivity.
  - rewrite sample_graph_data_run. reflexivity.
  - reflexivity.
Qed.

(** In the worked instance the node count handed downstream (3 + 4) is
    not the program's own node count (10), which the report carries. *)
Lemma sample_nodes_differ :
  ExtrapolatedGraphData.n_nodes sample_graph_data = 7%Z
  /\ ExtrapolatedResourceInfo.n_nodes sample_report = 10%Z.
Proof. split; reflexivity. Qed.




(** C9.  When [algorithm_description.program] is not a [QuantumProgram]
    the call fails with an AssertionError, and it has made no call by
    then: no fit and no downstream computation. *)
Theorem non_quantum_program_asserts
    (est : downstream)
    (self : ExtrapolationResourceEstimator.t)
    (ad : AlgorithmImplementation.t)
    (data : list ResourceInfo.t) :
  AlgorithmImplementation.program ad = NotAQuantumProgram ->
  estimate_via_extrapolation est self ad data = ([], Err AssertionError).
Proof.
  intros H. unfold estimate_via_extrapolation. rewrite H. reflexivity.
Qed.

Lemma non_quantum_program_asserts_witness :
  estimate_via_extrapolation echo_downstream
    (estimator [10; 20; 30]%Z "linear") other_description sample_data
  = ([], Err AssertionError).
Proof.
  apply (non_quantum_program_asserts echo_downstream
           (estimator [10; 20; 30]%Z "linear") other_description sample_data).
  reflexivity.
Defined.

(** C10.  The graph data handed to the downstream resource computation
    has [n_nodes] equal to the target program's [n_t_gates] plus
    [n_rotation_gates]; on every successful call such a record was handed
    over, while the report carries the program's own [n_nodes]. *)
Theorem downstream_nodes_are_gate_sum
    (est : downstream)
    (self : ExtrapolationResourceEstimator.t)
    (ad : AlgorithmImplementation.t)
    (data : list ResourceInfo.t)
    (program : QuantumProgram.t) :
  AlgorithmImplementation.program ad = AQuantumProgram program ->
  (forall g,
     In (EvEstimateResources g)
        (calls (estimate_via_extrapolation est self ad data)) ->
     ExtrapolatedGraphData.n_nodes g
     = (QuantumProgram.n_t_gates program
        + QuantumProgram.n_rotation_gates program)%Z)
  /\ (forall report,
        outcome (estimate_via_extrapolation est self ad data) = Ok report ->
        exists g,
          In (EvEstimateResources g)
             (calls (estimate_via_extrapolation est self ad data))
          /\ outcome (_get_extrapolated_graph_data self data program) = Ok g
          /\ ExtrapolatedResourceInfo.n_nodes report
             = QuantumProgram.n_nodes program).
Proof.
  intros Hp.
  assert (Hfits : forall g,
            ~ In (EvEstimateResources g)
                (calls (_get_extrapolated_graph_data self data program))).
  { intros g Hin.
    pose proof (graph_data_calls_fits self data program) as Hf.
    rewrite Forall_forall in Hf. specialize (Hf _ Hin). discriminate. }
  split.
  - intros g Hin.
    destruct (outcome (_get_extrapolated_graph_data self data program))
      as [g0|e] eqn:Hg.
    + assert (Hc : calls (estimate_via_extrapolation est self ad data)
                   = calls (_get_extrapolated_graph_data self data program)
                     ++ [EvEstimateResources g0]).
      { destruct (est self g0 ad) as [r|e] eqn:Hr.
        - rewrite (estimate_run est self ad data program g0 r Hp Hg Hr).
          reflexivity.
        - rewrite (estimate_downstream_error est self ad data program g0 e
                     Hp Hg Hr).
          reflexivity. }
      rewrite Hc in Hin. apply in_app_or in Hin.
      destruct Hin as [Hin|[Hin|[]]]; [exfalso; exact (Hfits g Hin)|].
      injection Hin as <-.
      apply (graph_data_n_nodes self data program g0 Hg).
    + rewrite (estimate_graph_data_error est self ad data program e Hp Hg)
        in Hin.
      exfalso. exact (Hfits g Hin).
  - intros report H.
    destruct (estimate_success est self ad data report H)
      as (program' & g & r & Hp' & Hg & Hr & Hc & ->).
    rewrite Hp in Hp'. injection Hp' as <-.
    exists g. split; [|split; [exact Hg|reflexivity]].
    rewrite Hc. apply in_or_app. right. left. reflexivity.
Qed.

Lemma downstream_nodes_are_gate_sum_witness :
  ExtrapolatedGraphData.n_nodes sample_graph_data = (3 + 4)%Z.
Proof.
  destruct (downstream_nodes_are_gate_sum echo_downstream
              (estimator [10; 20; 30]%Z "linear") sample_description
              sample_data sample_program eq_refl) as [H _].
  apply (H sample_graph_data).
  rewrite sample_estimate_run. simpl. auto.
Defined.

(** ** When the fits return *)

Lemma map_Fin_inj (a b : list R) : map Fin a = map Fin b -> a = b.
Proof.
  revert b. induction a as [|v a IH]; intros [|w b] H; try discriminate;
    [reflexivity|].
  simpl in H. injection H as -> H. f_equal. apply IH. exact H.
Qed.

Lemma constant_or_not (k : R) (x : list R) :
  (forall v, In v x -> v = k) \/ (exists v, In v x /\ v <> k).
Proof.
  induction x as [|w x [IH|(v & Hv & Hk)]].
  - left. intros v [].
  - destruct (Req_dec_T w k) as [->|Hw].
    + left. intros v [<-|Hv]; [reflexivity|apply IH, Hv].
    + right. exists w. split; [left; reflexivity|exact Hw].
  - right. exists v. split; [right; exact Hv|exact Hk].
Qed.

(** A design matrix of rank 2 comes from two different sample points. *)
Lemma gram_det_distinct_inv (x : list R) :
  gram_det x <> 0 -> exists u v, In u x /\ In v x /\ u <> v.
Proof.
  intros Hd. destruct x as [|h x].
  - exfalso. apply Hd. unfold gram_det, len. simpl. lra.
  - destruct (constant_or_not h (h :: x)) as [Hk|(v & Hv & Hk)].
    + exfalso. apply Hd. apply (gram_det_constant h). exact Hk.
    + exists v, h. repeat split; [exact Hv|left; reflexivity|exact Hk].
Qed.

Lemma polyfit_rank2_residual (x y : list R) :
  length x = length y -> (3 <= length x)%nat -> gram_det x <> 0 ->
  exists m c,
    polyfit (map Fin x) y
    = Ok {| coeffs := (m, c); residuals := [sse m c x y] |}
    /\ m = (len x * dot x y - sum x * sum y) / gram_det x
    /\ c = (sum y * dot x x - sum x * dot x y) / gram_det x.
Proof.
  intros Hl H3 Hd. rewrite (polyfit_rank2 x y Hl Hd). cbv zeta.
  destruct (2 <? length x)%nat eqn:E; [|apply Nat.ltb_ge in E; lia].
  eexists. eexists. split; [reflexivity|]. split; reflexivity.
Qed.

Lemma linear_returns_only_if (x y : list R) (q : R) (p : Z) (r : float) :
  outcome (_get_linear_extrapolation x y q) = Ok (p, r) ->
  length x = length y
  /\ (3 <= length x)%nat
  /\ exists u v, In u x /\ In v x /\ u <> v.
Proof.
  intros H.
  destruct (linear_success_inv x y q p r H) as (m & c & s0 & rest & E & _).
  destruct (polyfit_residual_inv _ _ _ s0 rest E eq_refl)
    as (xs & Hx & Hl & H3 & Hd).
  apply map_Fin_inj in Hx. subst xs.
  repeat split; auto. apply gram_det_distinct_inv. exact Hd.
Qed.

Lemma Rsign_Gt_inv (r : R) : Rsign r = Gt -> 0 < r.
Proof.
  unfold Rsign. destruct (Rlt_dec 0 r) as [H|_]; [auto|].
  destruct (Rlt_dec r 0); discriminate.
Qed.

Lemma log1_finite_inv (v t : R) : log1 v = Fin t -> 0 < v /\ t = ln v.
Proof.
  unfold log1. destruct (Rsign v) eqn:E; try discriminate.
  intros H. injection H as <-. split; [apply Rsign_Gt_inv, E|reflexivity].
Qed.

Lemma log_finite_inv (x xs : list R) :
  log x = map Fin xs -> Forall (fun v => 0 < v) x /\ xs = map ln x.
Proof.
  unfold log. revert xs. induction x as [|v x IH]; intros [|t xs] H;
    try discriminate.
  - split; [constructor|reflexivity].
  - simpl in H. injection H as H1 H2.
    destruct (log1_finite_inv v t H1) as [Hv ->].
    destruct (IH xs H2) as [Hx ->].
    split; [constructor; assumption|reflexivity].
Qed.

Lemma map_ln_distinct_inv (x : list R) :
  (exists u v, In u (map ln x) /\ In v (map ln x) /\ u <> v) ->
  exists u v, In u x /\ In v x /\ u <> v.
Proof.
  intros (u & v & Hu & Hv & Huv).
  apply in_map_iff in Hu. destruct Hu as (u' & <- & Hu).
  apply in_map_iff in Hv. destruct Hv as (v' & <- & Hv).
  exists u', v'. repeat split; auto. intros ->. apply Huv. reflexivity.
Qed.

(** The ceiling of the logarithmic projection exists only for a positive
    query point. *)
Lemma logarithmic_projection_finite (m c q : R) (p : Z) :
  math_ceil (fadd (fmul (Fin m) (log1 q)) (Fin c)) = Ok p -> 0 < q.
Proof.
  unfold log1. destruct (Rsign q) eqn:E.
  - simpl. destruct (Rsign m); discriminate.
  - discriminate.
  - intros _. apply Rsign_Gt_inv, E.
Qed.

Lemma logarithmic_returns_only_if
    (x y : list R) (q : R) (p : Z) (r : float) :
  outcome (_get_logarithmic_extrapolation x y q) = Ok (p, r) ->
  length x = length y
  /\ (3 <= length x)%nat
  /\ Forall (fun v => 0 < v) x
  /\ (exists u v, In u x /\ In v x /\ u <> v)
  /\ 0 < q.
Proof.
  intros H.
  destruct (logarithmic_success_inv x y q p r H)
    as (m & c & s0 & rest & E & Hc & _).
  destruct (polyfit_residual_inv _ _ _ s0 rest E eq_refl)
    as (xs & Hx & Hl & H3 & Hd).
  destruct (log_finite_inv x xs Hx) as [Hpos ->].
  rewrite length_map in Hl, H3.
  repeat split; auto.
  - apply map_ln_distinct_inv, gram_det_distinct_inv, Hd.
  - apply (logarithmic_projection_finite m c q p Hc).
Qed.

(** X1.  A linear extrapolation that returns (instead of raising) was
    given as many dependent as independent values, at least three sample
    points, and two of them with different [x]. *)
Theorem linear_returns_only_with_three_points
    (x y : list R) (q : R) (p : Z) (r : float) :
  outcome (_get_linear_extrapolation x y q) = Ok (p, r) ->
  length x = length y
  /\ (3 <= length x)%nat
  /\ exists u v, In u x /\ In v x /\ u <> v.
Proof.
  intros H.
  destruct (linear_returns_only_if x y q p r H) as (Hl & H3 & Hx).
  split; [exact Hl|]. split; [exact H3|exact Hx].
Qed.

Lemma linear_returns_only_with_three_points_witness :
  length [10; 20; 30] = length [100; 200; 300]
  /\ (3 <= length [10; 20; 30])%nat
  /\ exists u v, In u [10; 20; 30] /\ In v [10; 20; 30] /\ u <> v.
Proof.
  apply (linear_returns_only_with_three_points
           [10; 20; 30] [100; 200; 300] 1000 10000 (Fin 1)).
  pose proof (sample_degree_fit "linear") as H. unfold degree_fit in H.
  simpl map in H. cbn [QuantumProgram.steps sample_program] in H.
  rewrite H. reflexivity.
Defined.

(** X2.  A logarithmic extrapolation that returns was given as many
    dependent as independent values, at least three sample points, only
    positive [x], two of them different, and a positive query point. *)
Theorem logarithmic_returns_only_when_positive
    (x y : list R) (q : R) (p : Z) (r : float) :
  outcome (_get_logarithmic_extrapolation x y q) = Ok (p, r) ->
  length x = length y
  /\ (3 <= length x)%nat
  /\ Forall (fun v => 0 < v) x
  /\ (exists u v, In u x /\ In v x /\ u <> v)
  /\ 0 < q.
Proof.
  intros H.
  destruct (logarithmic_returns_only_if x y q p r H)
    as (Hl & H3 & Hpos & Hx & Hq).
  repeat split; assumption.
Qed.

Lemma logarithmic_returns_only_when_positive_witness :
  length [1; 2; 4] = length [5; 6; 7]
  /\ (3 <= length [1; 2; 4])%nat
  /\ Forall (fun v => 0 < v) [1; 2; 4]
  /\ (exists u v, In u [1; 2; 4] /\ In v [1; 2; 4] /\ u <> v)
  /\ 0 < 8.
Proof.
  apply (logarithmic_returns_only_when_positive
           [1; 2; 4] [5; 6; 7] 8 8 (Fin 1)).
  rewrite logarithmic_doubling. reflexivity.
Defined.


(** ** The range of R-squared *)

Lemma sse_nonneg (m c : R) (x y : list R) : 0 <= sse m c x y.
Proof.
  revert y. induction x as [|a x IH]; intros [|b y]; simpl; try lra.
  pose proof (pow2_ge_0 (b - (m * a + c))) as H. simpl in H.
  specialize (IH y). lra.
Qed.

Lemma r_squared_finite (s0 : R) (y : list R) :
  len y * var y <> 0 ->
  r_squared_of s0 y = Fin (1 - s0 / (len y * var y)).
Proof.
  intros H. unfold r_squared_of. simpl.
  destruct (Req_dec_T (len y * var y) 0) as [Hz|_]; [contradiction|].
  reflexivity.
Qed.

(** The R-squared computed from the residual a fit reports. *)
Lemma reported_r_squared_at_most_one (x : list float) (y : list R)
    (m c s0 : R) (rest : list R) :
  polyfit x y = Ok {| coeffs := (m, c); residuals := s0 :: rest |} ->
  r_squared_of s0 y <> PInf
  /\ forall v, r_squared_of s0 y = Fin v -> v <= 1.
Proof.
  intros E.
  destruct (polyfit_residual_inv _ _ _ s0 rest E eq_refl)
    as (xs & -> & Hl & H3 & Hd).
  destruct (polyfit_rank2_residual xs y Hl H3 Hd) as (m' & c' & E' & _).
  rewrite E in E'. injection E' as -> -> -> _.
  pose proof (sse_nonneg m' c' xs y) as Hs.
  assert (Hn : 0 < len y) by (apply len_pos; lia).
  assert (Hv : 0 <= len y * var y).
  { rewrite len_var by exact Hn. apply sq_dev_nonneg. }
  destruct (Req_dec_T (len y * var y) 0) as [Hz|Hnz].
  - unfold r_squared_of. simpl.
    destruct (Req_dec_T (len y * var y) 0) as [_|Hc]; [|contradiction].
    destruct Hs as [Hs|Hs].
    + rewrite (Rsign_pos _ Hs). simpl. split; [discriminate|].
      intros v H. discriminate.
    + rewrite <- Hs, Rsign_zero. simpl. split; [discriminate|].
      intros v H. discriminate.
  - rewrite (r_squared_finite _ _ Hnz). split; [discriminate|].
    intros v H. injection H as <-.
    assert (0 <= sse m' c' xs y / (len y * var y)).
    { apply Rmult_le_pos; [exact Hs|].
      left. apply Rinv_0_lt_compat. lra. }
    lra.
Qed.

(** X3.  The R-squared either extrapolation returns is never greater
    than 1: it is a number of at most 1, or it is [nan] or [-inf]. *)
Theorem r_squared_at_most_one (x y : list R) (q : R) (p : Z) (r : float) :
  outcome (_get_linear_extrapolation x y q) = Ok (p, r)
  \/ outcome (_get_logarithmic_extrapolation x y q) = Ok (p, r) ->
  r <> PInf /\ forall v, r = Fin v -> v <= 1.
Proof.
  intros [H|H].
  - destruct (linear_success_inv x y q p r H)
      as (m & c & s0 & rest & E & _ & ->).
    apply (reported_r_squared_at_most_one _ _ _ _ _ _ E).
  - destruct (logarithmic_success_inv x y q p r H)
      as (m & c & s0 & rest & E & _ & ->).
    apply (reported_r_squared_at_most_one _ _ _ _ _ _ E).
Qed.

Lemma r_squared_at_most_one_witness :
  Fin 1 <> PInf /\ forall v, Fin 1 = Fin v -> v <= 1.
Proof.
  apply (r_squared_at_most_one [10; 20; 30] [100; 200; 300] 1000 10000
           (Fin 1)).
  left.
  pose proof (sample_degree_fit "linear") as H. unfold degree_fit in H.
  simpl map in H. cbn [QuantumProgram.steps sample_program] in H.
  rewrite H. reflexivity.
Defined.

(** ** Later query points *)

Lemma ceil_bounds (r : R) : r <= IZR (ceil r) < r + 1.
Proof.
  unfold ceil. rewrite opp_IZR.
  destruct (base_Int_part (- r)) as [H1 H2]. lra.
Qed.

Lemma floor_bounds (r : R) : IZR (floor r) <= r < IZR (floor r) + 1.
Proof. unfold floor. destruct (base_Int_part r) as [H1 H2]. lra. Qed.

Lemma rint_bounds (r : R) : - (1 / 2) <= IZR (rint r) - r <= 1 / 2.
Proof.
  unfold rint. pose proof (floor_bounds r) as [H1 H2].
  destruct (Rlt_dec (r - IZR (floor r)) (1 / 2)) as [Hlo|Hlo]; [lra|].
  destruct (Rlt_dec (1 / 2) (r - IZR (floor r))) as [Hhi|Hhi].
  - rewrite plus_IZR. lra.
  - destruct (Z.even (floor r)); [lra|]. rewrite plus_IZR. lra.
Qed.

Lemma pow10_pos (n : nat) : 0 < 10 ^ n.
Proof. apply pow_lt. lra. Qed.

Lemma round_real_bounds (r : R) (n : nat) :
  - (1 / 2) / 10 ^ n <= round_real r n - r <= (1 / 2) / 10 ^ n.
Proof.
  unfold round_real. pose proof (pow10_pos n) as Hp.
  pose proof (rint_bounds (r * 10 ^ n)) as [H1 H2].
  assert (E : IZR (rint (r * 10 ^ n)) / 10 ^ n - r
              = (IZR (rint (r * 10 ^ n)) - r * 10 ^ n) / 10 ^ n)
    by (field; lra).
  rewrite E. unfold Rdiv. split.
  - apply Rmult_le_compat_r; [left; apply Rinv_0_lt_compat, Hp|lra].
  - apply Rmult_le_compat_r; [left; apply Rinv_0_lt_compat, Hp|lra].
Qed.

Lemma ceil_le (a b : R) : a <= b -> (ceil a <= ceil b)%Z.
Proof.
  intros H. pose proof (ceil_bounds a) as [_ Ha].
  pose proof (ceil_bounds b) as [Hb _].
  assert (Hlt : IZR (ceil a) < IZR (ceil b + 1)) by (rewrite plus_IZR; lra).
  apply lt_IZR in Hlt. lia.
Qed.

Lemma rint_le (a b : R) : a <= b -> (rint a <= rint b)%Z.
Proof.
  intros [H| ->]; [|lia].
  pose proof (rint_bounds a) as [_ Ha]. pose proof (rint_bounds b) as [Hb _].
  assert (Hlt : IZR (rint a) < IZR (rint b + 1)) by (rewrite plus_IZR; lra).
  apply lt_IZR in Hlt. lia.
Qed.

Lemma round_real_le (a b : R) (n : nat) :
  a <= b -> round_real a n <= round_real b n.
Proof.
  intros H. unfold round_real. pose proof (pow10_pos n) as Hp.
  unfold Rdiv. apply Rmult_le_compat_r; [left; apply Rinv_0_lt_compat, Hp|].
  apply IZR_le, rint_le. apply Rmult_le_compat_r; lra.
Qed.

(** X8.  On the same samples, a later query point never gives a smaller
    linear projection when the fitted slope is not negative, and the
    R-squared does not depend on the query point at all. *)
Theorem linear_projection_monotone
    (x y : list R) (q1 q2 m c : R) (res : list R)
    (p1 p2 : Z) (r1 r2 : float) :
  polyfit (map Fin x) y = Ok {| coeffs := (m, c); residuals := res |} ->
  0 <= m -> q1 <= q2 ->
  outcome (_get_linear_extrapolation x y q1) = Ok (p1, r1) ->
  outcome (_get_linear_extrapolation x y q2) = Ok (p2, r2) ->
  (p1 <= p2)%Z /\ r1 = r2.
Proof.
  intros E Hm Hq H1 H2.
  destruct (linear_success_inv x y q1 p1 r1 H1)
    as (m1 & c1 & s1 & rest1 & E1 & -> & ->).
  destruct (linear_success_inv x y q2 p2 r2 H2)
    as (m2 & c2 & s2 & rest2 & E2 & -> & ->).
  assert (F1 : Ok {| coeffs := (m, c); residuals := res |}
               = Ok {| coeffs := (m1, c1); residuals := s1 :: rest1 |})
    by (rewrite <- E; exact E1).
  assert (F2 : Ok {| coeffs := (m, c); residuals := res |}
               = Ok {| coeffs := (m2, c2); residuals := s2 :: rest2 |})
    by (rewrite <- E; exact E2).
  injection F1 as Hm1 Hc1 Hr1. injection F2 as Hm2 Hc2 Hr2.
  subst m1 c1 m2 c2. rewrite Hr1 in Hr2. injection Hr2 as Hs _. subst s2.
  split; [|reflexivity].
  apply ceil_le, round_real_le.
  assert (m * q1 <= m * q2) by (apply Rmult_le_compat_l; assumption). lra.
Qed.

Lemma linear_projection_monotone_witness :
  (ceil (round_real (10 * 500 + 0) 5) <= ceil (round_real (10 * 1000 + 0) 5))%Z
  /\ Fin 1 = Fin 1.
Proof.
  assert (Hx : exists u v, In u [10; 20; 30] /\ In v [10; 20; 30] /\ u <> v)
    by (exists 10, 20; simpl; repeat split; auto; lra).
  assert (H3 : (3 <= length [10; 20; 30])%nat) by (simpl; lia).
  apply (linear_projection_monotone [10; 20; 30]
           (map (fun v => 10 * v + 0) [10; 20; 30]) 500 1000 10 0 [0]).
  - apply polyfit_collinear; [exact H3|apply gram_det_distinct, Hx].
  - lra.
  - lra.
  - rewrite linear_collinear_run by (assumption || lra). reflexivity.
  - rewrite linear_collinear_run by (assumption || lra). reflexivity.
Defined.

(** ** Step counts and samples that do not line up *)

Lemma polyfit_length_mismatch (x : list float) (y : list R) :
  x <> [] -> length x <> length y ->
  polyfit x y = Err (TypeError "expected x and y to have same length").
Proof.
  intros Hx Hl. unfold polyfit.
  destruct (length x =? 0)%nat eqn:E0.
  - apply Nat.eqb_eq in E0. destruct x; [contradiction|discriminate].
  - apply Nat.eqb_neq in Hl. rewrite Hl. reflexivity.
Qed.

(** X11.  When the estimator's step counts and the samples differ in
    number, the extrapolation fails in its first fit with numpy's
    TypeError about lengths: no second fit is made and the downstream
    resource computation is not called. *)
Theorem misaligned_samples_error
    (est : downstream)
    (self : ExtrapolationResourceEstimator.t)
    (ad : AlgorithmImplementation.t)
    (data : list ResourceInfo.t)
    (program : QuantumProgram.t) :
  AlgorithmImplementation.program ad = AQuantumProgram program ->
  ExtrapolationResourceEstimator.steps_to_extrapolate_from self <> [] ->
  length (ExtrapolationResourceEstimator.steps_to_extrapolate_from self)
  <> length data ->
  _get_extrapolated_graph_data self data program
  = ([EvPolyfit
        (map Fin
           (map IZR
              (ExtrapolationResourceEstimator.steps_to_extrapolate_from self)))
        (map ResourceInfo.n_logical_qubits data)],
     Err (TypeError "expected x and y to have same length"))
  /\ estimate_via_extrapolation est self ad data
     = ([EvPolyfit
           (map Fin
              (map IZR
                 (ExtrapolationResourceEstimator.steps_to_extrapolate_from
                    self)))
           (map ResourceInfo.n_logical_qubits data)],
        Err (TypeError "expected x and y to have same length")).
Proof.
  intros Hp Hs Hl.
  set (steps := ExtrapolationResourceEstimator.steps_to_extrapolate_from self)
    in *.
  set (err := TypeError "expected x and y to have same length").
  assert (E : polyfit (map Fin (map IZR steps))
                (map ResourceInfo.n_logical_qubits data) = Err err).
  { apply polyfit_length_mismatch.
    - destruct steps; [contradiction|discriminate].
    - rewrite !length_map. exact Hl. }
  assert (Hd : degree_fit self data program
               = ([EvPolyfit (map Fin (map IZR steps))
                     (map ResourceInfo.n_logical_qubits data)], Err err)).
  { unfold degree_fit. apply linear_run_error. exact E. }
  assert (Hg : _get_extrapolated_graph_data self data program
               = ([EvPolyfit (map Fin (map IZR steps))
                     (map ResourceInfo.n_logical_qubits data)], Err err)).
  { rewrite (graph_data_degree_error self data program err)
      by (rewrite Hd; reflexivity).
    rewrite Hd. reflexivity. }
  split; [exact Hg|].
  rewrite (estimate_graph_data_error est self ad data program err Hp)
    by (rewrite Hg; reflexivity).
  rewrite Hg. reflexivity.
Qed.

Lemma misaligned_samples_error_witness :
  estimate_via_extrapolation echo_downstream
    (estimator [10; 20; 30]%Z "linear") sample_description two_samples
  = ([EvPolyfit [Fin 10; Fin 20; Fin 30] [100; 200]],
     Err (TypeError "expected x and y to have same length")).
Proof.
  destruct (misaligned_samples_error echo_downstream
              (estimator [10; 20; 30]%Z "linear") sample_description
              two_samples sample_program eq_refl) as [_ H].
  - discriminate.
  - simpl. lia.
  - exact H.
Defined.

(** X12.  An estimator configured with no step counts fails in its first
    fit with numpy's TypeError about an empty vector, whatever the samples
    and the fit type. *)
Theorem no_step_counts_error
    (self : ExtrapolationResourceEstimator.t)
    (data : list ResourceInfo.t)
    (program : QuantumProgram.t) :
  ExtrapolationResourceEstimator.steps_to_extrapolate_from self = [] ->
  _get_extrapolated_graph_data self data program
  = ([EvPolyfit [] (map ResourceInfo.n_logical_qubits data)],
     Err (TypeError "expected non-empty vector for x")).
Proof.
  intros Hs.
  assert (Hd : degree_fit self data program
               = ([EvPolyfit [] (map ResourceInfo.n_logical_qubits data)],
                  Err (TypeError "expected non-empty vector for x"))).
  { unfold degree_fit. rewrite Hs. apply linear_run_error. reflexivity. }
  rewrite (graph_data_degree_error self data program
             (TypeError "expected non-empty vector for x"))
    by (rewrite Hd; reflexivity).
  rewrite Hd. reflexivity.
Qed.

Lemma no_step_counts_error_witness :
  _get_extrapolated_graph_data (estimator [] "logarithmic")
    sample_data sample_program
  = ([EvPolyfit [] [100; 200; 300]],
     Err (TypeError "expected non-empty vector for x")).
Proof.
  apply (no_step_counts_error (estimator [] "logarithmic")
           sample_data sample_program).
  reflexivity.
Defined.

(** ** What the functions make of the fit's result *)

Lemma logarithmic_run_ceil (x y : list R) (q m c s0 : R) (rest : list R) :
  polyfit (log x) y = Ok {| coeffs := (m, c); residuals := s0 :: rest |} ->
  outcome (_get_logarithmic_extrapolation x y q)
  = match math_ceil (fadd (fmul (Fin m) (log1 q)) (Fin c)) with
    | Ok p => Ok (p, r_squared_of s0 y)
    | Err e => Err e
    end.
Proof.
  intros E.
  unfold _get_logarithmic_extrapolation, np_polyfit, bind, tell, lift.
  rewrite E. cbn. destruct (math_ceil _); reflexivity.
Qed.

(** ** The family of the measurement-step fit *)

Lemma doubling_degree_fit (fit_type : string) :
  degree_fit (estimator [1; 2; 4]%Z fit_type) doubling_data doubling_program
  = ([EvPolyfit [Fin 1; Fin 2; Fin 4] [100; 200; 400]], Ok (800%Z, Fin 1)).
Proof.
  unfold degree_fit. simpl map. cbn [QuantumProgram.steps doubling_program].
  assert (Hx : exists u v, In u [1; 2; 4] /\ In v [1; 2; 4] /\ u <> v)
    by (exists 1, 2; simpl; repeat split; auto; lra).
  pose proof (linear_collinear_run 100 0 8 [1; 2; 4]
                ltac:(simpl; lia) ltac:(lra) Hx) as H.
  simpl map in H.
  replace (100 * 1 + 0) with 100 in H by lra.
  replace (100 * 2 + 0) with 200 in H by lra.
  replace (100 * 4 + 0) with 400 in H by lra.
  replace (100 * 8 + 0) with 800 in H by lra.
  rewrite (round_real_IZR 800 5), ceil_IZR in H. exact H.
Qed.

Lemma doubling_steps_fit :
  measurement_steps_fit (estimator [1; 2; 4]%Z "logarithmic")
    doubling_data doubling_program
  = ([EvPolyfit [Fin (ln 1); Fin (ln 2); Fin (ln 4)] [5; 6; 7]],
     Ok (8%Z, Fin 1)).
Proof.
  unfold measurement_steps_fit. simpl map.
  cbn [QuantumProgram.steps doubling_program
       ExtrapolationResourceEstimator.n_measurement_steps_fit_type estimator].
  change ("logarithmic" =? "logarithmic")%string with true. cbv iota zeta.
  apply logarithmic_doubling.
Qed.

Lemma doubling_graph_data_run :
  _get_extrapolated_graph_data (estimator [1; 2; 4]%Z "logarithmic")
    doubling_data doubling_program
  = ([EvPolyfit [Fin 1; Fin 2; Fin 4] [100; 200; 400];
      EvPolyfit [Fin (ln 1); Fin (ln 2); Fin (ln 4)] [5; 6; 7]],
     Ok doubling_graph_data).
Proof.
  rewrite (graph_data_run _ _ _ (800%Z, Fin 1) (8%Z, Fin 1)).
  - rewrite doubling_degree_fit, doubling_steps_fit. reflexivity.
  - rewrite doubling_degree_fit. reflexivity.
  - rewrite doubling_steps_fit. reflexivity.
Qed.

Lemma measurement_fit_family
    (self : ExtrapolationResourceEstimator.t)
    (data : list ResourceInfo.t) (program : QuantumProgram.t)
    (s : Z * float) :
  outcome (measurement_steps_fit self data program) = Ok s ->
  (ExtrapolationResourceEstimator.n_measurement_steps_fit_type self
   = "logarithmic"%string
   /\ outcome (_get_logarithmic_extrapolation
                 (map IZR
                    (ExtrapolationResourceEstimator.steps_to_extrapolate_from
                       self))
                 (map ResourceInfo.n_measurement_steps data)
                 (IZR (QuantumProgram.steps program))) = Ok s)
  \/ (ExtrapolationResourceEstimator.n_measurement_steps_fit_type self
      = "linear"%string
      /\ outcome (_get_linear_extrapolation
                    (map IZR
                       (ExtrapolationResourceEstimator.steps_to_extrapolate_from
                          self))
                    (map ResourceInfo.n_measurement_steps data)
                    (IZR (QuantumProgram.steps program))) = Ok s).
Proof.
  unfold measurement_steps_fit. cbv zeta.
  destruct (_ =? "logarithmic")%string eqn:E1.
  - apply String.eqb_eq in E1. intros H. left. auto.
  - destruct (_ =? "linear")%string eqn:E2; [|discriminate].
    apply String.eqb_eq in E2. intros H. right. auto.
Qed.

(** X14.  In every extrapolated graph data record the measurement-step
    projection and its R-squared are those of a direct call to the
    extrapolation of the configured family, on the step counts, the
    samples' measurement-step metric and the target step count: the
    logarithmic one for 'logarithmic', the linear one for 'linear', and
    no other setting gives a record. *)
Theorem measurement_metric_by_family
    (self : ExtrapolationResourceEstimator.t)
    (data : list ResourceInfo.t) (program : QuantumProgram.t)
    (g : ExtrapolatedGraphData.t) :
  outcome (_get_extrapolated_graph_data self data program) = Ok g ->
  (ExtrapolationResourceEstimator.n_measurement_steps_fit_type self
   = "logarithmic"%string
   /\ outcome (_get_logarithmic_extrapolation
                 (map IZR
                    (ExtrapolationResourceEstimator.steps_to_extrapolate_from
                       self))
                 (map ResourceInfo.n_measurement_steps data)
                 (IZR (QuantumProgram.steps program)))
      = Ok (ExtrapolatedGraphData.n_measurement_steps g,
            ExtrapolatedGraphData.n_measurement_steps_r_squared g))
  \/ (ExtrapolationResourceEstimator.n_measurement_steps_fit_type self
      = "linear"%string
      /\ outcome (_get_linear_extrapolation
                    (map IZR
                       (ExtrapolationResourceEstimator.steps_to_extrapolate_from
                          self))
                    (map ResourceInfo.n_measurement_steps data)
                    (IZR (QuantumProgram.steps program)))
         = Ok (ExtrapolatedGraphData.n_measurement_steps g,
               ExtrapolatedGraphData.n_measurement_steps_r_squared g)).
Proof.
  intros H.
  destruct (graph_data_success self data program g H)
    as (d & [s r2] & _ & Hs & ->).
  exact (measurement_fit_family self data program (s, r2) Hs).
Qed.

Lemma measurement_metric_by_family_witness :
  ("logarithmic"%string = "logarithmic"%string
   /\ outcome (_get_logarithmic_extrapolation
                 (map IZR [1; 2; 4]%Z)
                 (map ResourceInfo.n_measurement_steps doubling_data)
                 (IZR 8))
      = Ok (8%Z, Fin 1))
  \/ ("logarithmic"%string = "linear"%string
      /\ outcome (_get_linear_extrapolation
                    (map IZR [1; 2; 4]%Z)
                    (map ResourceInfo.n_measurement_steps doubling_data)
                    (IZR 8))
         = Ok (8%Z, Fin 1)).
Proof.
  apply (measurement_metric_by_family (estimator [1; 2; 4]%Z "logarithmic")
           doubling_data doubling_program doubling_graph_data).
  rewrite doubling_graph_data_run. reflexivity.
Defined.

(** X15.  An estimator constructed without a fit type fits the
    measurement-step metric with the logarithmic family.  Whenever it
    produces graph data, the measurement-step projection is the one of
    [_get_logarithmic_extrapolation], every configured step count is
    positive and so is the target step count. *)
Theorem default_family_is_logarithmic
    (steps : list Z) (data : list ResourceInfo.t)
    (program : QuantumProgram.t) (g : ExtrapolatedGraphData.t) :
  outcome (_get_extrapolated_graph_data (__init__ steps None) data program)
  = Ok g ->
  outcome (_get_logarithmic_extrapolation
             (map IZR steps)
             (map ResourceInfo.n_measurement_steps data)
             (IZR (QuantumProgram.steps program)))
  = Ok (ExtrapolatedGraphData.n_measurement_steps g,
        ExtrapolatedGraphData.n_measurement_steps_r_squared g)
  /\ Forall (fun v => (0 < v)%Z) steps
  /\ (0 < QuantumProgram.steps program)%Z.
Proof.
  intros H.
  destruct (graph_data_success _ data program g H)
    as (d & [s r2] & _ & Hs & ->).
  destruct (measurement_fit_family _ data program (s, r2) Hs)
    as [[_ Hlog]|[Hft _]]; [|discriminate].
  cbn [ExtrapolationResourceEstimator.steps_to_extrapolate_from __init__]
    in Hlog.
  split; [exact Hlog|].
  destruct (logarithmic_returns_only_if _ _ _ _ _ Hlog)
    as (_ & _ & Hpos & _ & Hq).
  split.
  - rewrite Forall_map in Hpos. rewrite Forall_forall in *.
    intros v Hv. apply lt_IZR. apply Hpos. exact Hv.
  - apply lt_IZR. exact Hq.
Qed.

Lemma default_family_is_logarithmic_witness :
  outcome (_get_logarithmic_extrapolation
             (map IZR [1; 2; 4]%Z)
             (map ResourceInfo.n_measurement_steps doubling_data)
             (IZR 8))
  = Ok (8%Z, Fin 1)
  /\ Forall (fun v => (0 < v)%Z) [1; 2; 4]%Z
  /\ (0 < 8)%Z.
Proof.
  apply (default_family_is_logarithmic [1; 2; 4]%Z doubling_data
           doubling_program doubling_graph_data).
  change (__init__ [1; 2; 4]%Z None)
    with (estimator [1; 2; 4]%Z "logarithmic").
  rewrite doubling_graph_data_run. reflexivity.
Defined.

(** ** The order of the calls, and failures *)

Lemma measurement_fit_calls
    (self : ExtrapolationResourceEstimator.t)
    (data : list ResourceInfo.t) (program : QuantumProgram.t)
    (s : Z * float) :
  outcome (measurement_steps_fit self data program) = Ok s ->
  exists x',
    calls (measurement_steps_fit self data program)
    = [EvPolyfit x' (map ResourceInfo.n_measurement_steps data)]
    /\ (x' = log (map IZR
                    (ExtrapolationResourceEstimator.steps_to_extrapolate_from
                       self))
        \/ x' = map Fin
                  (map IZR
                     (ExtrapolationResourceEstimator.steps_to_extrapolate_from
                        self))).
Proof.
  unfold measurement_steps_fit. cbv zeta.
  destruct (_ =? "logarithmic")%string.
  - intros _. eexists. split; [apply logarithmic_calls|left; reflexivity].
  - destruct (_ =? "linear")%string; [|discriminate].
    intros _. eexists. split; [apply linear_calls|right; reflexivity].
Qed.

(** X16.  A successful call has made exactly three calls, in this order:
    the least-squares fit of the degree metric on the step counts, the
    least-squares fit of the measurement-step metric on the step counts or
    on their logarithms, and one downstream resource computation, on the
    graph data assembled from the two fits. *)
Theorem successful_call_order
    (est : downstream)
    (self : ExtrapolationResourceEstimator.t)
    (ad : AlgorithmImplementation.t)
    (data : list ResourceInfo.t)
    (report : ExtrapolatedResourceInfo.t) :
  outcome (estimate_via_extrapolation est self ad data) = Ok report ->
  exists program g x',
    AlgorithmImplementation.program ad = AQuantumProgram program
    /\ outcome (_get_extrapolated_graph_data self data program) = Ok g
    /\ calls (estimate_via_extrapolation est self ad data)
       = [EvPolyfit
            (map Fin
               (map IZR
                  (ExtrapolationResourceEstimator.steps_to_extrapolate_from
                     self)))
            (map ResourceInfo.n_logical_qubits data);
          EvPolyfit x' (map ResourceInfo.n_measurement_steps data);
          EvEstimateResources g]
    /\ (x' = log (map IZR
                    (ExtrapolationResourceEstimator.steps_to_extrapolate_from
                       self))
        \/ x' = map Fin
                  (map IZR
                     (ExtrapolationResourceEstimator.steps_to_extrapolate_from
                        self))).
Proof.
  intros H.
  destruct (estimate_success est self ad data report H)
    as (program & g & r & Hp & Hg & _ & Hc & _).
  destruct (graph_data_success self data program g Hg)
    as (d & s & Hd & Hs & _).
  destruct (measurement_fit_calls self data program s Hs) as (x' & Hx & Hor).
  exists program, g, x'. repeat split; auto.
  rewrite Hc, (graph_data_run self data program d s Hd Hs).
  unfold calls at 1. cbn [fst]. rewrite Hx.
  unfold degree_fit. rewrite linear_calls. reflexivity.
Qed.

Lemma successful_call_order_witness :
  exists program g x',
    AlgorithmImplementation.program sample_description
    = AQuantumProgram program
    /\ outcome (_get_extrapolated_graph_data
                  (estimator [10; 20; 30]%Z "linear") sample_data program)
       = Ok g
    /\ calls (estimate_via_extrapolation echo_downstream
                (estimator [10; 20; 30]%Z "linear") sample_description
                sample_data)
       = [EvPolyfit (map Fin (map IZR [10; 20; 30]%Z))
            (map ResourceInfo.n_logical_qubits sample_data);
          EvPolyfit x' (map ResourceInfo.n_measurement_steps sample_data);
          EvEstimateResources g]
    /\ (x' = log (map IZR [10; 20; 30]%Z)
        \/ x' = map Fin (map IZR [10; 20; 30]%Z)).
Proof.
  apply (successful_call_order echo_downstream
           (estimator [10; 20; 30]%Z "linear") sample_description sample_data
           sample_report).
  rewrite sample_estimate_run. reflexivity.
Defined.

(** X17.  Failures are passed on unchanged.  When the extrapolation of
    the graph data fails, the caller gets that error and the downstream
    resource computation has not been called; when the downstream
    computation fails, the caller gets its error. *)
Theorem failures_propagate
    (est : downstream)
    (self : ExtrapolationResourceEstimator.t)
    (ad : AlgorithmImplementation.t)
    (data : list ResourceInfo.t)
    (program : QuantumProgram.t) :
  AlgorithmImplementation.program ad = AQuantumProgram program ->
  (forall e,
     outcome (_get_extrapolated_graph_data self data program) = Err e ->
     outcome (estimate_via_extrapolation est self ad data) = Err e
     /\ forall g,
          ~ In (EvEstimateResources g)
              (calls (estimate_via_extrapolation est self ad data)))
  /\ (forall g e,
        outcome (_get_extrapolated_graph_data self data program) = Ok g ->
        est self g ad = Err e ->
        outcome (estimate_via_extrapolation est self ad data) = Err e).
Proof.
  intros Hp. split.
  - intros e Hg.
    rewrite (estimate_graph_data_error est self ad data program e Hp Hg).
    split; [reflexivity|].
    intros g Hin. unfold calls at 1 in Hin. cbn [fst] in Hin.
    pose proof (graph_data_calls_fits self data program) as Hf.
    rewrite Forall_forall in Hf. specialize (Hf _ Hin). discriminate.
  - intros g e Hg Hr.
    rewrite (estimate_downstream_error est self ad data program g e Hp Hg Hr).
    reflexivity.
Qed.

Lemma failures_propagate_witness :
  exists e,
    outcome (estimate_via_extrapolation echo_downstream
               (estimator [10; 20]%Z "linear") sample_description two_samples)
    = Err e
    /\ forall g,
         ~ In (EvEstimateResources g)
             (calls (estimate_via_extrapolation echo_downstream
                       (estimator [10; 20]%Z "linear") sample_description
                       two_samples)).
Proof.
  destruct (graph_data_few_points (estimator [10; 20]%Z "linear")
              two_samples sample_program) as [e He]; [simpl; lia|].
  exists e.
  destruct (failures_propagate echo_downstream (estimator [10; 20]%Z "linear")
              sample_description two_samples sample_program eq_refl)
    as [H _].
  apply H. exact He.
Defined.

(** What the two functions make of the fit's result. *)
Lemma linear_outcome (x y : list R) (q : R) :
  outcome (_get_linear_extrapolation x y q)
  = match polyfit (map Fin x) y with
    | Err e => Err e
    | Ok fit =>
        match residuals fit with
        | [] => Err index_error
        | s0 :: _ =>
            Ok (ceil (round_real (fst (coeffs fit) * q + snd (coeffs fit)) 5),
                r_squared_of s0 y)
        end
    end.
Proof.
  destruct (polyfit (map Fin x) y) as [[[m c] [|s0 rest]]|e] eqn:E.
  - rewrite (linear_run_no_residual _ _ _ _ _ E). reflexivity.
  - rewrite (linear_run _ _ _ _ _ _ _ E). reflexivity.
  - rewrite (linear_run_error _ _ _ _ E). reflexivity.
Qed.

Lemma logarithmic_outcome (x y : list R) (q : R) :
  outcome (_get_logarithmic_extrapolation x y q)
  = match polyfit (log x) y with
    | Err e => Err e
    | Ok fit =>
        match residuals fit with
        | [] => Err index_error
        | s0 :: _ =>
            match math_ceil (fadd (fmul (Fin (fst (coeffs fit))) (log1 q))
                               (Fin (snd (coeffs fit)))) with
            | Ok p => Ok (p, r_squared_of s0 y)
            | Err e => Err e
            end
        end
    end.
Proof.
  destruct (polyfit (log x) y) as [[[m c] [|s0 rest]]|e] eqn:E.
  - rewrite (logarithmic_run_no_residual _ _ _ _ _ E). reflexivity.
  - rewrite (logarithmic_run_ceil _ _ _ _ _ _ _ E). reflexivity.
  - rewrite (logarithmic_run_error _ _ _ _ E). reflexivity.
Qed.

(** ** What the fits do not check *)

Lemma constant_samples_return :
  exists r,
    outcome (_get_linear_extrapolation [1; 2; 3] [5; 5; 5] 10) = Ok (5%Z, r)
    /\ forall v, r <> Fin v.
Proof.
  exists NaN. split; [|discriminate].
  rewrite (linear_zero_variance 5 10 [1; 2; 3] [5; 5; 5]).
  - rewrite (round_real_IZR 5 5), ceil_IZR. reflexivity.
  - simpl. lia.
  - reflexivity.
  - simpl. intros v [E|[E|[E|[]]]]; symmetry; exact E.
  - exists 1, 2. simpl. repeat split; auto. lra.
Qed.

(** C7 (as amended).  Dependent values that are all equal are not
    detected: neither function tests the variance it divides by.
    Whatever the dependent values, a call that fails has failed with an
    error of [np.polyfit], with the IndexError of reading an empty
    residual array, or with an error of [math.ceil]; none of them is
    about the variance.  And a call on equal dependent values can return
    normally: on [x = 1, 2, 3] and [y = 5, 5, 5] the linear extrapolation
    returns the projection 5 together with an R-squared that is not a
    finite number. *)
Theorem zero_variance_not_detected (x y : list R) (q : R) :
  (forall e,
     outcome (_get_linear_extrapolation x y q) = Err e ->
     polyfit (map Fin x) y = Err e
     \/ e = index_error
     \/ exists v, math_ceil v = Err e)
  /\ (forall e,
        outcome (_get_logarithmic_extrapolation x y q) = Err e ->
        polyfit (log x) y = Err e
        \/ e = index_error
        \/ exists v, math_ceil v = Err e)
  /\ exists r,
       outcome (_get_linear_extrapolation [1; 2; 3] [5; 5; 5] 10)
       = Ok (5%Z, r)
       /\ forall v, r <> Fin v.
Proof.
  split; [|split].
  - intros e. rewrite linear_outcome.
    destruct (polyfit (map Fin x) y) as [fit|e'].
    + destruct (residuals fit) as [|s0 rest]; [|discriminate].
      intros H. injection H as <-. right. left. reflexivity.
    + intros H. injection H as <-. left. reflexivity.
  - intros e. rewrite logarithmic_outcome.
    destruct (polyfit (log x) y) as [fit|e'].
    + destruct (residuals fit) as [|s0 rest].
      * intros H. injection H as <-. right. left. reflexivity.
      * destruct (math_ceil _) as [p|e'] eqn:Ec; [discriminate|].
        intros H. injection H as <-. right. right. eexists. exact Ec.
    + intros H. injection H as <-. left. reflexivity.
  - exact constant_samples_return.
Qed.

(** C7 fails as stated: three samples with the same dependent value give
    a normal return whose R-squared is not a finite number; nothing is
    raised and no value is set aside to mark the case. *)
Lemma zero_variance_counterexample :
  exists r,
    outcome (_get_linear_extrapolation [1; 2; 3] [5; 5; 5] 10) = Ok (5%Z, r)
    /\ forall v, r <> Fin v.
Proof. exact constant_samples_return. Qed.

(** ** When the estimator produces graph data *)

Lemma map_IZR_distinct (x : list Z) :
  (exists u v, In u x /\ In v x /\ u <> v)
  <-> (exists u v, In u (map IZR x) /\ In v (map IZR x) /\ u <> v).
Proof.
  split.
  - intros (u & v & Hu & Hv & Huv).
    exists (IZR u), (IZR v). repeat split; try (apply in_map; assumption).
    intros H. apply Huv, eq_IZR, H.
  - intros (u & v & Hu & Hv & Huv).
    apply in_map_iff in Hu. destruct Hu as (u' & <- & Hu).
    apply in_map_iff in Hv. destruct Hv as (v' & <- & Hv).
    exists u', v'. repeat split; auto. intros ->. apply Huv. reflexivity.
Qed.

Lemma map_IZR_positive (x : list Z) :
  Forall (fun v => (0 < v)%Z) x <-> Forall (fun v => 0 < v) (map IZR x).
Proof.
  rewrite Forall_map. split; intros H; rewrite Forall_forall in *;
    intros v Hv; specialize (H v Hv).
  - apply IZR_lt. exact H.
  - apply lt_IZR. exact H.
Qed.

(** X20.  [_get_extrapolated_graph_data] produces graph data only when
    there are as many samples as step counts, at least three, two of the
    step counts differ, and the fit type is 'linear', or it is
    'logarithmic' and all step counts and the target step count are
    positive. *)
Theorem graph_data_returns_only_if
    (self : ExtrapolationResourceEstimator.t)
    (data : list ResourceInfo.t) (program : QuantumProgram.t)
    (g : ExtrapolatedGraphData.t) :
  outcome (_get_extrapolated_graph_data self data program) = Ok g ->
  length (ExtrapolationResourceEstimator.steps_to_extrapolate_from self)
  = length data
  /\ (3 <= length data)%nat
  /\ (exists u v,
        In u (ExtrapolationResourceEstimator.steps_to_extrapolate_from self)
        /\ In v (ExtrapolationResourceEstimator.steps_to_extrapolate_from
                   self)
        /\ u <> v)
  /\ (ExtrapolationResourceEstimator.n_measurement_steps_fit_type self
      = "linear"%string
      \/ (ExtrapolationResourceEstimator.n_measurement_steps_fit_type self
          = "logarithmic"%string
          /\ Forall (fun v => (0 < v)%Z)
               (ExtrapolationResourceEstimator.steps_to_extrapolate_from
                  self)
          /\ (0 < QuantumProgram.steps program)%Z)).
Proof.
  intros H.
  destruct (graph_data_success self data program g H)
    as ([d r1] & [s r2] & Hd & Hs & _).
  unfold degree_fit in Hd.
  destruct (linear_returns_only_if _ _ _ _ _ Hd) as (Hl & H3 & Hx).
  rewrite !length_map in Hl. rewrite length_map in H3.
  split; [exact Hl|]. split; [lia|].
  split; [apply map_IZR_distinct, Hx|].
  destruct (measurement_fit_family self data program (s, r2) Hs)
    as [[Hft Hlog]|[Hft _]]; [right|left; exact Hft].
  destruct (logarithmic_returns_only_if _ _ _ _ _ Hlog)
    as (_ & _ & Hpos & _ & Hq).
  split; [exact Hft|]. split; [apply map_IZR_positive, Hpos|].
  apply lt_IZR, Hq.
Qed.

Lemma graph_data_returns_only_if_witness :
  length [1; 2; 4]%Z = length doubling_data
  /\ (3 <= length doubling_data)%nat
  /\ (exists u v, In u [1; 2; 4]%Z /\ In v [1; 2; 4]%Z /\ u <> v)
  /\ ("logarithmic"%string = "linear"%string
      \/ ("logarithmic"%string = "logarithmic"%string
          /\ Forall (fun v => (0 < v)%Z) [1; 2; 4]%Z
          /\ (0 < 8)%Z)).
Proof.
  apply (graph_data_returns_only_if (estimator [1; 2; 4]%Z "logarithmic")
           doubling_data doubling_program doubling_graph_data).
  rewrite doubling_graph_data_run. reflexivity.
Defined.

(** ** The report and its printed form *)

(** X21.  In the report of a successful call every resource number other
    than the node count is the one the downstream computation returned
    for the extrapolated graph data: nothing else is recomputed or
    replaced. *)
Theorem report_passes_downstream_through
    (est : downstream)
    (self : ExtrapolationResourceEstimator.t)
    (ad : AlgorithmImplementation.t)
    (data : list ResourceInfo.t)
    (report : ExtrapolatedResourceInfo.t) :
  outcome (estimate_via_extrapolation est self ad data) = Ok report ->
  exists program g r,
    AlgorithmImplementation.program ad = AQuantumProgram program
    /\ outcome (_get_extrapolated_graph_data self data program) = Ok g
    /\ est self g ad = Ok r
    /\ ExtrapolatedResourceInfo.n_logical_qubits report
       = ResourceInfo.n_logical_qubits r
    /\ ExtrapolatedResourceInfo.n_measurement_steps report
       = ResourceInfo.n_measurement_steps r
    /\ ExtrapolatedResourceInfo.n_t_gates report = ResourceInfo.n_t_gates r
    /\ ExtrapolatedResourceInfo.n_rotation_gates report
       = ResourceInfo.n_rotation_gates r
    /\ ExtrapolatedResourceInfo.code_distance report
       = ResourceInfo.code_distance r
    /\ ExtrapolatedResourceInfo.logical_error_rate report
       = ResourceInfo.logical_error_rate r
    /\ ExtrapolatedResourceInfo.total_time_in_seconds report
       = ResourceInfo.total_time_in_seconds r
    /\ ExtrapolatedResourceInfo.n_physical_qubits report
       = ResourceInfo.n_physical_qubits r
    /\ ExtrapolatedResourceInfo.decoder_total_energy_consumption report
       = ResourceInfo.decoder_total_energy_consumption r
    /\ ExtrapolatedResourceInfo.decoder_power report
       = ResourceInfo.decoder_power r
    /\ ExtrapolatedResourceInfo.decoder_area report
       = ResourceInfo.decoder_area r
    /\ ExtrapolatedResourceInfo.max_decodable_distance report
       = ResourceInfo.max_decodable_distance r.
Proof.
  intros H.
  destruct (estimate_success est self ad data report H)
    as (program & g & r & Hp & Hg & Hr & _ & ->).
  exists program, g, r. repeat split; assumption.
Qed.

Lemma report_passes_downstream_through_witness :
  exists program g r,
    AlgorithmImplementation.program sample_description
    = AQuantumProgram program
    /\ outcome (_get_extrapolated_graph_data
                  (estimator [10; 20; 30]%Z "linear") sample_data program)
       = Ok g
    /\ echo_downstream (estimator [10; 20; 30]%Z "linear") g
         sample_description = Ok r
    /\ ExtrapolatedResourceInfo.n_logical_qubits sample_report
       = ResourceInfo.n_logical_qubits r
    /\ ExtrapolatedResourceInfo.n_measurement_steps sample_report
       = ResourceInfo.n_measurement_steps r
    /\ ExtrapolatedResourceInfo.n_t_gates sample_report
       = ResourceInfo.n_t_gates r
    /\ ExtrapolatedResourceInfo.n_rotation_gates sample_report
       = ResourceInfo.n_rotation_gates r
    /\ ExtrapolatedResourceInfo.code_distance sample_report
       = ResourceInfo.code_distance r
    /\ ExtrapolatedResourceInfo.logical_error_rate sample_report
       = ResourceInfo.logical_error_rate r
    /\ ExtrapolatedResourceInfo.total_time_in_seconds sample_report
       = ResourceInfo.total_time_in_seconds r
    /\ ExtrapolatedResourceInfo.n_physical_qubits sample_report
       = ResourceInfo.n_physical_qubits r
    /\ ExtrapolatedResourceInfo.decoder_total_energy_consumption sample_report
       = ResourceInfo.decoder_total_energy_consumption r
    /\ ExtrapolatedResourceInfo.decoder_power sample_report
       = ResourceInfo.decoder_power r
    /\ ExtrapolatedResourceInfo.decoder_area sample_report
       = ResourceInfo.decoder_area r
    /\ ExtrapolatedResourceInfo.max_decodable_distance sample_report
       = ResourceInfo.max_decodable_distance r.
Proof.
  apply (report_passes_downstream_through echo_downstream
           (estimator [10; 20; 30]%Z "linear") sample_description sample_data
           sample_report).
  rewrite sample_estimate_run. reflexivity.
Defined.

Lemma append_assoc (a b c : string) :
  ((a ++ b) ++ c = a ++ (b ++ c))%string.
Proof.
  induction a as [|ch a IH]; simpl; [reflexivity|]. rewrite IH. reflexivity.
Qed.

Lemma prefix_append (s t : string) : String.prefix s (s ++ t) = true.
Proof.
  induction s as [|a s IH]; simpl.
  - destruct t; reflexivity.
  - destruct (Ascii.ascii_dec a a) as [_|n]; [exact IH|contradiction].
Qed.

(** X22.  The printed form of a report is the inherited text, a newline,
    and two lines that give the two R-squared scores by name, the one of
    the logical qubits first; it ends without a newline.  The inherited
    text is a prefix of it, and the samples and the target step count are
    not printed by the subclass: two reports with the same inherited text
    and the same two scores print the same. *)
Theorem repr_layout
    (super_repr : ExtrapolatedResourceInfo.t -> string)
    (str : float -> string)
    (self other : ExtrapolatedResourceInfo.t) :
  __repr__ super_repr str self
  = (super_repr self ++ newline
     ++ "n_logical_qubits_r_squared: "
     ++ str (ExtrapolatedResourceInfo.n_logical_qubits_r_squared self)
     ++ newline
     ++ "n_measurement_steps_r_squared: "
     ++ str (ExtrapolatedResourceInfo.n_measurement_steps_r_squared
               self))%string
  /\ String.prefix (super_repr self) (__repr__ super_repr str self) = true
  /\ (super_repr self = super_repr other ->
      ExtrapolatedResourceInfo.n_logical_qubits_r_squared self
      = ExtrapolatedResourceInfo.n_logical_qubits_r_squared other ->
      ExtrapolatedResourceInfo.n_measurement_steps_r_squared self
      = ExtrapolatedResourceInfo.n_measurement_steps_r_squared other ->
      __repr__ super_repr str self = __repr__ super_repr str other).
Proof.
  assert (E : forall o,
            __repr__ super_repr str o
            = (super_repr o ++ newline
               ++ "n_logical_qubits_r_squared: "
               ++ str (ExtrapolatedResourceInfo.n_logical_qubits_r_squared o)
               ++ newline
               ++ "n_measurement_steps_r_squared: "
               ++ str (ExtrapolatedResourceInfo.n_measurement_steps_r_squared
                         o))%string).
  { intros o. unfold __repr__. cbn [map new_necessary_info join fst snd].
    rewrite !append_assoc. reflexivity. }
  split; [apply E|]. split.
  - rewrite E. apply prefix_append.
  - intros H0 H1 H2. rewrite !E, H0, H1, H2. reflexivity.
Qed.
